(** * Session persistence of tidb-memory: [session_manager.py]

    A shallow embedding of [SessionManager] and of the part of the Python
    run time it relies on: JSON documents as [json.load] returns them,
    insertion-ordered dictionaries, exceptions, the two storage files, the
    wall clock and the identifier generator.  The methods are written in a
    small state-and-exception monad so that each definition can be read
    next to the Python method of the same name. *)

From Stdlib Require Import String Ascii ZArith List Bool Lia Permutation Sorted.
From Stdlib Require Import DecimalString DecimalZ.
Import ListNotations.
Local Open Scope string_scope.
Local Open Scope Z_scope.
Local Open Scope list_scope.

Set Implicit Arguments.
Set Warnings "-register-all".

(** ** Python values read from and written to the storage files *)

(** What [json.load] builds and [json.dump] accepts.  Numbers are
    integers: the persisted layout holds no fractional number.  A text is
    a [string] holding the bytes of its UTF-8 encoding, as the files do
    ([code_points] below counts its characters).  A [JObj] is a Python
    [dict]: its pairs are in insertion order and, as [json.load] builds
    it, no key occurs twice ([Dict.wf] below). *)
Inductive json : Type :=
| JNull
| JBool (b : bool)
| JNum (n : Z)
| JStr (s : string)
| JArr (l : list json)
| JObj (kv : list (string * json)).

(** Exceptions, by the Python class that is raised.  [PersistenceError]
    is the name the specification gives to the error of a failed write:
    the source defines no such class and none of its statements raises
    it. *)
Inductive exn : Type :=
| OSError
| JSONDecodeError
| TypeError
| AttributeError
| KeyError
| ValueError
| SummarizerError
| PersistenceError.

Inductive res (A : Type) : Type :=
| Ok (a : A)
| Raise (e : exn).
Arguments Ok {A} a.
Arguments Raise {A} e.

Definition res_bind {A B} (r : res A) (k : A -> res B) : res B :=
  match r with
  | Ok a => k a
  | Raise e => Raise e
  end.

Declare Scope res_scope.
Delimit Scope res_scope with res.
Notation "'let?' x ':=' c 'in' k" := (res_bind c (fun x => k))
  (at level 10, x name, c at level 100, k at level 200) : res_scope.
Local Open Scope res_scope.

(** ** Insertion-ordered dictionaries *)

Module Dict.
Section Ops.
Variable V : Type.
Definition t := list (string * V).

Fixpoint get (k : string) (d : t) : option V :=
  match d with
  | [] => None
  | (k', v) :: d' => if String.eqb k k' then Some v else get k d'
  end.

Definition mem (k : string) (d : t) : bool :=
  match get k d with Some _ => true | None => false end.

(** [d[k] = v]: an existing key keeps its position, a new key goes last. *)
Fixpoint set (k : string) (v : V) (d : t) : t :=
  match d with
  | [] => [(k, v)]
  | (k', v') :: d' =>
      if String.eqb k k' then (k, v) :: d' else (k', v') :: set k v d'
  end.

(** [d.pop(k, None)], and [del d[k]] when [k] is a key. *)
Fixpoint pop (k : string) (d : t) : t :=
  match d with
  | [] => []
  | (k', v') :: d' =>
      if String.eqb k k' then d' else (k', v') :: pop k d'
  end.

Definition keys (d : t) : list string := map fst d.
Definition values (d : t) : list V := map snd d.

(** [dict(pairs)]: pairs are inserted from left to right. *)
Definition of_items (l : list (string * V)) : t :=
  fold_left (fun d kv => set (fst kv) (snd kv) d) l [].

(** The invariant of a Python dictionary: no key twice. *)
Definition wf (d : t) : Prop := NoDup (keys d).
End Ops.
End Dict.

Abbreviation dict := (Dict.t json).

(** ** Operators and methods on Python values *)

Definition num_of (j : json) : option Z :=
  match j with
  | JNum n => Some n
  | JBool b => Some (if b then 1 else 0)
  | _ => None
  end.

(** [a == b].  [True == 1]; dictionaries compare regardless of order. *)
Fixpoint py_eq (a b : json) {struct a} : bool :=
  match a, b with
  | JNull, JNull => true
  | JStr s, JStr s' => String.eqb s s'
  | JArr l, JArr l' =>
      (fix go (l l' : list json) {struct l} : bool :=
         match l, l' with
         | [], [] => true
         | x :: xs, y :: ys => py_eq x y && go xs ys
         | _, _ => false
         end) l l'
  | JObj d, JObj d' =>
      Nat.eqb (length d) (length d') &&
      (fix go (d : list (string * json)) : bool :=
         match d with
         | [] => true
         | (k, v) :: r =>
             match Dict.get k d' with
             | Some v' => py_eq v v' && go r
             | None => false
             end
         end) d
  | _, _ =>
      match num_of a, num_of b with
      | Some n, Some m => Z.eqb n m
      | _, _ => false
      end
  end.

(** [a < b], which [list.sort] uses.  Strings compare by code point
    (the order of their UTF-8 bytes is the same order), numbers by
    value, lists at their first unequal position; any other pairing
    raises [TypeError]. *)
Fixpoint py_lt (a b : json) {struct a} : res bool :=
  match a, b with
  | JStr s, JStr s' => Ok (String.ltb s s')
  | JArr l, JArr l' =>
      (fix go (l l' : list json) {struct l} : res bool :=
         match l, l' with
         | [], [] => Ok false
         | [], _ :: _ => Ok true
         | _ :: _, [] => Ok false
         | x :: xs, y :: ys => if py_eq x y then go xs ys else py_lt x y
         end) l l'
  | _, _ =>
      match num_of a, num_of b with
      | Some n, Some m => Ok (Z.ltb n m)
      | _, _ => Raise TypeError
      end
  end.

(** Truth value of an object in a condition. *)
Definition py_truthy (j : json) : bool :=
  match j with
  | JNull => false
  | JBool b => b
  | JNum n => negb (Z.eqb n 0)
  | JStr s => negb (String.eqb s "")
  | JArr l => match l with [] => false | _ => true end
  | JObj d => match d with [] => false | _ => true end
  end.

(** A byte that continues a character of several bytes in UTF-8:
    [10xxxxxx]. *)
Definition is_continuation (c : ascii) : bool :=
  match c with
  | Ascii _ _ _ _ _ _ b6 b7 => b7 && negb b6
  end.

(** The number of code points of a text: its bytes that start a
    character. *)
Fixpoint code_points (s : string) : nat :=
  match s with
  | EmptyString => 0%nat
  | String c s' =>
      if is_continuation c then code_points s' else S (code_points s')
  end.

(** [len(j)]: of a text, the number of its code points. *)
Definition py_len (j : json) : res Z :=
  match j with
  | JStr s => Ok (Z.of_nat (code_points s))
  | JArr l => Ok (Z.of_nat (length l))
  | JObj d => Ok (Z.of_nat (length d))
  | _ => Raise TypeError
  end.

(** [k in j] for a string [k] *)
Definition py_contains (k : string) (j : json) : res bool :=
  match j with
  | JObj d => Ok (Dict.mem k d)
  | JArr l => Ok (existsb (py_eq (JStr k)) l)
  | JStr s => Ok (match String.index 0 k s with Some _ => true | None => false end)
  | _ => Raise TypeError
  end.

(** [j[k]] for a string [k] *)
Definition py_getitem (j : json) (k : string) : res json :=
  match j with
  | JObj d => match Dict.get k d with Some v => Ok v | None => Raise KeyError end
  | _ => Raise TypeError
  end.

(** [j[k] = v] *)
Definition py_setitem (j : json) (k : string) (v : json) : res json :=
  match j with
  | JObj d => Ok (JObj (Dict.set k v d))
  | _ => Raise TypeError
  end.

(** [del j[k]] *)
Definition py_delitem (j : json) (k : string) : res json :=
  match j with
  | JObj d => if Dict.mem k d then Ok (JObj (Dict.pop k d)) else Raise KeyError
  | _ => Raise TypeError
  end.

(** [j.get(k, default)] *)
Definition py_get (j : json) (k : string) (default : json) : res json :=
  match j with
  | JObj d => Ok (match Dict.get k d with Some v => v | None => default end)
  | _ => Raise AttributeError
  end.

(** [j.pop(k, None)]: a list has [pop] but takes one argument at most. *)
Definition py_pop (j : json) (k : string) : res json :=
  match j with
  | JObj d => Ok (JObj (Dict.pop k d))
  | JArr _ => Raise TypeError
  | _ => Raise AttributeError
  end.

(** [j.keys()], [j.values()], [j.items()] *)
Definition py_items (j : json) : res (list (string * json)) :=
  match j with
  | JObj d => Ok d
  | _ => Raise AttributeError
  end.

Definition py_keys (j : json) : res (list string) :=
  let? d := py_items j in Ok (Dict.keys d).

Definition py_values (j : json) : res (list json) :=
  let? d := py_items j in Ok (Dict.values d).

(** [l[:k]] *)
Definition py_slice_to {A} (k : Z) (l : list A) : list A :=
  let n := Z.of_nat (length l) in
  firstn (Z.to_nat (if k <? 0 then Z.max 0 (k + n) else k)) l.

(** [l.sort(key=..., reverse=True)] with the keys already paired to the
    items: a stable sort into descending order that compares keys with
    [<] and raises as soon as a comparison does.  Which pairs are compared
    is the algorithm's business; it does not matter for keys that are all
    texts or all numbers, where no comparison raises, nor, among two keys
    or more, for a key that compares with no other ([None], a dictionary,
    a text among numbers), where some comparison raises in any case. *)
Section Sort.
Variables A K : Type.
Variable lt : K -> K -> res bool.

Fixpoint insert_desc (x : K * A) (l : list (K * A)) : res (list (K * A)) :=
  match l with
  | [] => Ok [x]
  | y :: ys =>
      let? b := lt (fst x) (fst y) in
      if b then (let? r := insert_desc x ys in Ok (y :: r))
      else Ok (x :: y :: ys)
  end.

Fixpoint sort_desc (l : list (K * A)) : res (list (K * A)) :=
  match l with
  | [] => Ok []
  | x :: xs => let? r := sort_desc xs in insert_desc x r
  end.
End Sort.

(** [for x in l: ...] with a body that may raise. *)
Fixpoint map_res {A B} (f : A -> res B) (l : list A) : res (list B) :=
  match l with
  | [] => Ok []
  | x :: xs => let? y := f x in let? ys := map_res f xs in Ok (y :: ys)
  end.

(** ** The data model

    [models.py] is not part of the sources at hand; the three classes and
    their conversions to and from dictionaries follow the persisted layout
    that the specification gives. *)

(** Modelled from the spec: the textual form in which [models.py], absent
    from the sources, stores a [datetime]; the specification requires it
    to be round-trippable and says no more.  A [datetime] itself is a
    point on the time line, counted in microseconds. *)
Class TimestampText : Type := {
  isoformat : Z -> string;
  fromisoformat : string -> option Z;
  fromisoformat_isoformat : forall t, fromisoformat (isoformat t) = Some t
}.

(** Modelled from the spec: the role of a message in [models.py], absent
    from the sources; an enumeration of [user], [assistant] and [system],
    stored by name. *)
Inductive Role : Type := user | assistant | system.

(** Modelled from the spec: the stored name of a role ([models.py] is
    absent). *)
Definition Role_value (r : Role) : string :=
  match r with
  | user => "user"
  | assistant => "assistant"
  | system => "system"
  end.

(** Modelled from the spec: the role of a stored name ([models.py] is
    absent); a text that names no role raises [ValueError]. *)
Definition Role_of_value (s : string) : res Role :=
  if String.eqb s "user" then Ok user
  else if String.eqb s "assistant" then Ok assistant
  else if String.eqb s "system" then Ok system
  else Raise ValueError.

(** Modelled from the spec: how the absent [from_dict] methods read a
    field, at the type that the persisted layout gives it. *)
Definition as_str (j : json) : res string :=
  match j with JStr s => Ok s | _ => Raise TypeError end.

Definition as_int (j : json) : res Z :=
  match j with JNum n => Ok n | _ => Raise TypeError end.

Definition as_bool (j : json) : res bool :=
  match j with JBool b => Ok b | _ => Raise TypeError end.

Definition as_list (j : json) : res (list json) :=
  match j with JArr l => Ok l | _ => Raise TypeError end.

(** Modelled from the spec: how the absent [from_dict] methods read a
    timestamp back from its text. *)
Definition as_datetime `{TimestampText} (j : json) : res Z :=
  let? s := as_str j in
  match fromisoformat s with
  | Some t => Ok t
  | None => Raise ValueError
  end.

Module Message.
(** Modelled from the spec: class [Message] of the absent [models.py],
    [{role, content, timestamp}]. *)
Record t : Type := mk {
  role : Role;
  content : string;
  timestamp : Z
}.

(** Modelled from the spec: the absent [Message.to_dict], the stored
    record of a message. *)
Definition to_dict `{TimestampText} (m : t) : json :=
  JObj [("role", JStr (Role_value (role m)));
        ("content", JStr (content m));
        ("timestamp", JStr (isoformat (timestamp m)))].

(** Modelled from the spec: the absent [Message.from_dict], which reads a
    message back from its record. *)
Definition from_dict `{TimestampText} (data : json) : res t :=
  let? r := py_getitem data "role" in
  let? r := as_str r in
  let? r := Role_of_value r in
  let? c := py_getitem data "content" in
  let? c := as_str c in
  let? ts := py_getitem data "timestamp" in
  let? ts := as_datetime ts in
  Ok (mk r c ts).
End Message.

Module SessionSummary.
(** Modelled from the spec: class [SessionSummary] of the absent
    [models.py],
    [{session_id, summary, message_count, start_time, end_time}]. *)
Record t : Type := mk {
  session_id : string;
  summary : string;
  message_count : Z;
  start_time : Z;
  end_time : Z
}.

(** Modelled from the spec: the absent [SessionSummary.to_dict], the
    stored record of a summary. *)
Definition to_dict `{TimestampText} (s : t) : json :=
  JObj [("session_id", JStr (session_id s));
        ("summary", JStr (summary s));
        ("message_count", JNum (message_count s));
        ("start_time", JStr (isoformat (start_time s)));
        ("end_time", JStr (isoformat (end_time s)))].

(** Modelled from the spec: the absent [SessionSummary.from_dict], which
    reads a summary back from its record. *)
Definition from_dict `{TimestampText} (data : json) : res t :=
  let? i := py_getitem data "session_id" in
  let? i := as_str i in
  let? s := py_getitem data "summary" in
  let? s := as_str s in
  let? n := py_getitem data "message_count" in
  let? n := as_int n in
  let? st := py_getitem data "start_time" in
  let? st := as_datetime st in
  let? en := py_getitem data "end_time" in
  let? en := as_datetime en in
  Ok (mk i s n st en).
End SessionSummary.

Module ChatSession.
(** Modelled from the spec: class [ChatSession] of the absent [models.py],
    [{session_id, messages, start_time, is_active, memory_enabled,
    previous_summaries}]. *)
Record t : Type := mk {
  session_id : string;
  messages : list Message.t;
  start_time : Z;
  is_active : bool;
  memory_enabled : bool;
  previous_summaries : list SessionSummary.t
}.

(** [session.is_active = value] *)
Definition set_is_active (value : bool) (s : t) : t :=
  mk (session_id s) (messages s) (start_time s) value
     (memory_enabled s) (previous_summaries s).

(** Modelled from the spec: the absent [ChatSession.to_dict], the stored
    record of a session. *)
Definition to_dict `{TimestampText} (s : t) : json :=
  JObj [("session_id", JStr (session_id s));
        ("messages", JArr (map Message.to_dict (messages s)));
        ("start_time", JStr (isoformat (start_time s)));
        ("is_active", JBool (is_active s));
        ("memory_enabled", JBool (memory_enabled s));
        ("previous_summaries",
         JArr (map SessionSummary.to_dict (previous_summaries s)))].

(** Modelled from the spec: the absent [ChatSession.from_dict], which
    reads a session back from its record. *)
Definition from_dict `{TimestampText} (data : json) : res t :=
  let? i := py_getitem data "session_id" in
  let? i := as_str i in
  let? ms := py_getitem data "messages" in
  let? ms := as_list ms in
  let? ms := map_res Message.from_dict ms in
  let? st := py_getitem data "start_time" in
  let? st := as_datetime st in
  let? a := py_getitem data "is_active" in
  let? a := as_bool a in
  let? me := py_getitem data "memory_enabled" in
  let? me := as_bool me in
  let? ps := py_getitem data "previous_summaries" in
  let? ps := as_list ps in
  let? ps := map_res SessionSummary.from_dict ps in
  Ok (mk i ms st a me ps).
End ChatSession.

(** ** The environment: storage files, clock, identifiers *)

(** What is found at a file's place: nothing, something that cannot be
    opened or is not JSON, or a JSON document. *)
Inductive file : Type :=
| Absent
| Unreadable
| Doc (j : json).

(** How writing to a file goes: well, or [open(..., 'w')] fails and the
    file stays as it was, or [json.dump] fails after [open] has truncated
    the file. *)
Inductive device : Type :=
| Healthy
| OpenFails
| DumpFails.

(** [self.sessions_file] and [self.summaries_file] *)
Inductive path : Type := sessions_file | summaries_file.

Record world : Type := mkWorld {
  sessions_json : file;
  summaries_json : file;
  sessions_dev : device;
  summaries_dev : device;
  clock : Z;
  uuid_stream : nat -> string;
  uuid_next : nat;
  write_log : list path
}.

Definition content (p : path) (w : world) : file :=
  match p with
  | sessions_file => sessions_json w
  | summaries_file => summaries_json w
  end.

Definition dev (p : path) (w : world) : device :=
  match p with
  | sessions_file => sessions_dev w
  | summaries_file => summaries_dev w
  end.

Definition put (p : path) (f : file) (w : world) : world :=
  match p with
  | sessions_file =>
      mkWorld f (summaries_json w) (sessions_dev w) (summaries_dev w)
              (clock w) (uuid_stream w) (uuid_next w) (write_log w)
  | summaries_file =>
      mkWorld (sessions_json w) f (sessions_dev w) (summaries_dev w)
              (clock w) (uuid_stream w) (uuid_next w) (write_log w)
  end.

Definition logged (p : path) (w : world) : world :=
  mkWorld (sessions_json w) (summaries_json w) (sessions_dev w)
          (summaries_dev w) (clock w) (uuid_stream w) (uuid_next w)
          (write_log w ++ [p]).

(** The two stored collections. *)
Definition storage (w : world) : file * file :=
  (sessions_json w, summaries_json w).

(** ** Computations that read and write the world and may raise.
    A raised exception does not undo what was written before it. *)

Definition M (A : Type) : Type := world -> res A * world.

Definition ret {A} (a : A) : M A := fun w => (Ok a, w).

Definition raise {A} (e : exn) : M A := fun w => (Raise e, w).

Definition bind {A B} (c : M A) (k : A -> M B) : M B :=
  fun w =>
    match c w with
    | (Ok a, w') => k a w'
    | (Raise e, w') => (Raise e, w')
    end.

Definition lift {A} (r : res A) : M A := fun w => (r, w).

(** [try: c  except Exception as e: h e] *)
Definition try_except {A} (c : M A) (h : exn -> M A) : M A :=
  fun w =>
    match c w with
    | (Ok a, w') => (Ok a, w')
    | (Raise e, w') => h e w'
    end.

Declare Scope M_scope.
Delimit Scope M_scope with M.
Notation "x <- c ;; k" := (bind c (fun x => k))
  (at level 61, c at next level, right associativity) : M_scope.
Notation "c ;; k" := (bind c (fun _ => k))
  (at level 61, right associativity) : M_scope.
Local Open Scope M_scope.

(** [p.exists()] *)
Definition path_exists (p : path) : M bool :=
  fun w => (Ok (match content p w with Absent => false | _ => true end), w).

(** [with open(p, 'r') as f: json.load(f)] *)
Definition read_json (p : path) : M json :=
  fun w =>
    match content p w with
    | Doc j => (Ok j, w)
    | Unreadable => (Raise JSONDecodeError, w)
    | Absent => (Raise OSError, w)
    end.

(** [with open(p, 'w') as f: json.dump(j, f, indent=2)] *)
Definition write_json (p : path) (j : json) : M unit :=
  fun w =>
    let w1 := logged p w in
    match dev p w with
    | Healthy => (Ok tt, put p (Doc j) w1)
    | OpenFails => (Raise OSError, w1)
    | DumpFails => (Raise OSError, put p Unreadable w1)
    end.

(** [datetime.now()] *)
Definition now : M Z := fun w => (Ok (clock w), w).

(** [str(uuid.uuid4())] *)
Definition uuid4 : M string :=
  fun w =>
    (Ok (uuid_stream w (uuid_next w)),
     mkWorld (sessions_json w) (summaries_json w) (sessions_dev w)
             (summaries_dev w) (clock w) (uuid_stream w)
             (S (uuid_next w)) (write_log w)).

(** ** [class SessionManager] *)

(** Modelled from the spec: [LLMService.generate_session_summary_sync] of
    the absent [llm_service.py], a synchronous call from a session to a
    text, which may fail.  It is a field of the manager, next to the
    string of [self.storage_path]. *)
Record SessionManager : Type := {
  storage_path : string;
  generate_session_summary_sync : ChatSession.t -> res string
}.

Section Methods.
Context `{TimestampText}.
Variable self : SessionManager.

(** Lines 160-169: a missing file, and any failure to read or parse it,
    give the empty dictionary. *)
Definition _load_sessions : M json :=
  try_except
    (found <- path_exists sessions_file ;;
     if found then read_json sessions_file else ret (JObj []))
    (fun _ => ret (JObj [])).

(** Lines 186-195. *)
Definition _load_summaries : M json :=
  try_except
    (found <- path_exists summaries_file ;;
     if found then read_json summaries_file else ret (JObj []))
    (fun _ => ret (JObj [])).

(** Lines 171-184: the exception is logged and raised again. *)
Definition _save_summary (summary : SessionSummary.t) : M unit :=
  try_except
    (summaries <- _load_summaries ;;
     summaries <- lift (py_setitem summaries
                          (SessionSummary.session_id summary)
                          (SessionSummary.to_dict summary)) ;;
     write_json summaries_file summaries)
    (fun e => raise e).

(** The key of the sort is [x.end_time]. *)
Definition by_end_time (x : SessionSummary.t) : Z * SessionSummary.t :=
  (SessionSummary.end_time x, x).

(** [<] on [datetime]. *)
Definition datetime_lt (a b : Z) : res bool := Ok (a <? b).

(** Lines 197-212. *)
Definition _load_all_summaries : M (list SessionSummary.t) :=
  try_except
    (summaries_data <- _load_summaries ;;
     records <- lift (py_values summaries_data) ;;
     summaries <- lift (map_res SessionSummary.from_dict records) ;;
     sorted <- lift (sort_desc datetime_lt (map by_end_time summaries)) ;;
     ret (map snd sorted))
    (fun _ => ret []).

(** Lines 28-47. *)
Definition create_session (memory_enabled : bool) : M ChatSession.t :=
  u <- uuid4 ;;
  let session_id := substring 0 8 u in
  previous_summaries <-
    (if memory_enabled then _load_all_summaries else ret []) ;;
  t <- now ;;
  ret (ChatSession.mk session_id [] t true memory_enabled
                      previous_summaries).

(** Lines 49-62: the exception is logged and raised again. *)
Definition save_session (session : ChatSession.t) : M unit :=
  try_except
    (sessions <- _load_sessions ;;
     sessions <- lift (py_setitem sessions
                         (ChatSession.session_id session)
                         (ChatSession.to_dict session)) ;;
     write_json sessions_file sessions)
    (fun e => raise e).

(** Lines 64-79. *)
Definition load_session (session_id : string) : M (option ChatSession.t) :=
  try_except
    (sessions <- _load_sessions ;;
     present <- lift (py_contains session_id sessions) ;;
     if present then
       session_data <- lift (py_getitem sessions session_id) ;;
       session <- lift (ChatSession.from_dict session_data) ;;
       ret (Some session)
     else ret None)
    (fun _ => ret None).

(** Lines 81-110.  The caller's session object is changed in place before
    anything can fail, so it is returned next to the result. *)
Definition close_session (session : ChatSession.t)
  : M (ChatSession.t * option SessionSummary.t) :=
  let session := ChatSession.set_is_active false session in
  r <- try_except
         (summary_text <- lift (generate_session_summary_sync self session) ;;
          t <- now ;;
          let session_summary :=
            SessionSummary.mk
              (ChatSession.session_id session)
              summary_text
              (Z.of_nat (length (ChatSession.messages session)))
              (ChatSession.start_time session)
              t in
          _save_summary session_summary ;;
          save_session session ;;
          ret (Some session_summary))
         (fun _ => ret None) ;;
  ret (session, r).

(** Lines 112-118. *)
Definition get_session_history : M (list string) :=
  try_except
    (sessions <- _load_sessions ;;
     lift (py_keys sessions))
    (fun _ => ret []).

(** The body of the loop of [get_active_sessions]. *)
Fixpoint collect_active (records : list json) : res (list ChatSession.t) :=
  match records with
  | [] => Ok []
  | session_data :: rest =>
      let? flag := py_get session_data "is_active" (JBool false) in
      if py_truthy flag then
        let? s := ChatSession.from_dict session_data in
        let? r := collect_active rest in
        Ok (s :: r)
      else collect_active rest
  end.

(** Lines 120-134. *)
Definition get_active_sessions : M (list ChatSession.t) :=
  try_except
    (sessions <- _load_sessions ;;
     records <- lift (py_values sessions) ;;
     lift (collect_active records))
    (fun _ => ret []).

(** The [try] block of [delete_session]. *)
Definition delete_session_try (session_id : string) : M bool :=
  sessions <- _load_sessions ;;
  present <- lift (py_contains session_id sessions) ;;
  if present then
    sessions <- lift (py_delitem sessions session_id) ;;
    write_json sessions_file sessions ;;
    ret true
  else ret false.

(** Lines 136-154. *)
Definition delete_session (session_id : string) : M bool :=
  try_except (delete_session_try session_id) (fun _ => ret false).

(** Lines 156-158. *)
Definition get_session_summaries : M (list SessionSummary.t) :=
  _load_all_summaries.

(** The key of the sort is [x[1].get('start_time', '')]. *)
Definition by_start_time (x : string * json)
  : res (json * (string * json)) :=
  let? k := py_get (snd x) "start_time" (JStr "") in Ok (k, x).

(** [for session_id in ids: summaries.pop(session_id, None)].  The ids
    come from a set, whose order of iteration is not fixed; the result
    does not depend on it (see [pop_all_order]). *)
Fixpoint pop_all (ids : list string) (summaries : json) : res json :=
  match ids with
  | [] => Ok summaries
  | session_id :: rest =>
      let? summaries := py_pop summaries session_id in
      pop_all rest summaries
  end.

(** [session_items = list(sessions.items())] followed by
    [session_items.sort(key=..., reverse=True)] *)
Definition rank_by_start_time (sessions : json)
  : res (list (string * json)) :=
  let? session_items := py_items sessions in
  let? keyed := map_res by_start_time session_items in
  let? sorted := sort_desc py_lt keyed in
  Ok (map snd sorted).

(** The [try] block of [cleanup_old_sessions]. *)
Definition cleanup_old_sessions_try (keep_count : Z) : M unit :=
  sessions <- _load_sessions ;;
  summaries <- _load_summaries ;;
  n <- lift (py_len sessions) ;;
  if n <=? keep_count then ret tt
  else
    session_items <- lift (rank_by_start_time sessions) ;;
    let sessions_to_keep :=
      Dict.of_items (py_slice_to keep_count session_items) in
    write_json sessions_file (JObj sessions_to_keep) ;;
    all_ids <- lift (py_keys sessions) ;;
    let sessions_to_delete :=
      filter (fun k => negb (Dict.mem k sessions_to_keep)) all_ids in
    summaries <- lift (pop_all sessions_to_delete summaries) ;;
    write_json summaries_file summaries.

(** Lines 214-245. *)
Definition cleanup_old_sessions (keep_count : Z) : M unit :=
  try_except (cleanup_old_sessions_try keep_count) (fun _ => ret tt).

(** [s.get('is_active', False)] as a condition. *)
Definition is_active_flag (s : json) : res bool :=
  let? a := py_get s "is_active" (JBool false) in Ok (py_truthy a).

(** [len(s.get('messages', []))] *)
Definition messages_len (s : json) : res Z :=
  let? m := py_get s "messages" (JArr []) in py_len m.

(** The [try] block of [get_storage_stats]. *)
Definition get_storage_stats_try : M dict :=
  sessions <- _load_sessions ;;
  summaries <- _load_summaries ;;
  records <- lift (py_values sessions) ;;
  flags <- lift (map_res is_active_flag records) ;;
  let active_count := Z.of_nat (length (filter (fun b => b) flags)) in
  lens <- lift (map_res messages_len records) ;;
  let total_messages := fold_right Z.add 0 lens in
  total_sessions <- lift (py_len sessions) ;;
  total_summaries <- lift (py_len summaries) ;;
  ret [("total_sessions", JNum total_sessions);
       ("active_sessions", JNum active_count);
       ("total_summaries", JNum total_summaries);
       ("total_messages", JNum total_messages);
       ("storage_path", JStr (storage_path self))].

(** Lines 247-266. *)
Definition get_storage_stats : M dict :=
  try_except get_storage_stats_try (fun _ => ret []).
End Methods.

(** ** Words of the specification *)

(** What a load makes of a file: a missing or unreadable file counts as
    an empty collection. *)
Definition loaded (f : file) : json :=
  match f with
  | Doc j => j
  | _ => JObj []
  end.

(** The persisted summaries collection, in storage order. *)
Definition persisted_summaries `{TimestampText} (w : world)
  : res (list SessionSummary.t) :=
  let? records := py_values (loaded (summaries_json w)) in
  map_res SessionSummary.from_dict records.

(** A session id is a key of the stored sessions collection. *)
Definition key_stored (session_id : string) (w : world) : bool :=
  match loaded (sessions_json w) with
  | JObj d => Dict.mem session_id d
  | _ => false
  end.

(** The stored [is_active] flag of a record is true. *)
Definition stored_is_active (record : json) : bool :=
  match record with
  | JObj kv =>
      match Dict.get "is_active" kv with
      | Some v => py_truthy v
      | None => false
      end
  | _ => false
  end.

(** The number of messages of a stored record. *)
Definition stored_message_count (record : json) : Z :=
  match record with
  | JObj kv =>
      match Dict.get "messages" kv with
      | Some (JArr l) => Z.of_nat (length l)
      | _ => 0
      end
  | _ => 0
  end.

(** A stored session record: a dictionary whose messages, when there are
    any, are a list. *)
Definition session_record (record : json) : Prop :=
  exists kv, record = JObj kv /\
    (Dict.get "messages" kv = None \/
     exists l, Dict.get "messages" kv = Some (JArr l)).

(** The text that ranks a stored record in [cleanup_old_sessions]: its
    [start_time] as stored, or the empty text when it has none. *)
Definition start_text (record : json) : option string :=
  match record with
  | JObj kv =>
      match Dict.get "start_time" kv with
      | None => Some ""
      | Some (JStr s) => Some s
      | Some _ => None
      end
  | _ => None
  end.

Definition start_text_or_empty (record : json) : string :=
  match start_text record with Some s => s | None => "" end.

(** Descending order of timestamps and of ranking texts. *)
Definition later_first (a b : SessionSummary.t) : Prop :=
  SessionSummary.end_time b <= SessionSummary.end_time a.

Definition not_older (a b : string * json) : Prop :=
  String.ltb (start_text_or_empty (snd a)) (start_text_or_empty (snd b)) = false.

(** [x] may stand before [y] in a list sorted into descending order of
    the keys, compared by [ltb]. *)
Definition desc {A K} (ltb : K -> K -> bool) (x y : K * A) : Prop :=
  ltb (fst x) (fst y) = false.

(** ** A textual form of timestamps: decimal numerals *)

Lemma decimal_round_trip (t : Z) :
  option_map Z.of_int
    (NilEmpty.int_of_string (NilEmpty.string_of_int (Z.to_int t))) = Some t.
Proof.
  rewrite NilEmpty.isi. simpl. now rewrite DecimalZ.of_to.
Qed.

Definition decimal_text : TimestampText :=
  {| isoformat := fun t => NilEmpty.string_of_int (Z.to_int t);
     fromisoformat := fun s => option_map Z.of_int (NilEmpty.int_of_string s);
     fromisoformat_isoformat := decimal_round_trip |}.

(** The session that the stored collection holds under an id, if the
    collection is a dictionary, has the id and its record can be read. *)
Definition stored_session `{TimestampText} (session_id : string) (w : world)
  : option ChatSession.t :=
  match loaded (sessions_json w) with
  | JObj d =>
      match Dict.get session_id d with
      | Some record =>
          match ChatSession.from_dict record with
          | Ok s => Some s
          | Raise _ => None
          end
      | None => None
      end
  | _ => None
  end.

(** What [_load_all_summaries] makes of the summaries file. *)
Definition sorted_summaries `{TimestampText} (f : file)
  : list SessionSummary.t :=
  match
    (let? records := py_values (loaded f) in
     let? summaries := map_res SessionSummary.from_dict records in
     let? sorted := sort_desc datetime_lt (map by_end_time summaries) in
     Ok (map snd sorted))
  with
  | Ok l => l
  | Raise _ => []
  end.

(** [<] on the keys of the ranking when both are texts. *)
Definition text_ltb (a b : json) : bool :=
  match a, b with
  | JStr s, JStr s' => String.ltb s s'
  | _, _ => false
  end.

(** The session ids that [cleanup_old_sessions] removes: stored before,
    not kept. *)
Definition removed_id (stored kept : dict) (session_id : string) : bool :=
  Dict.mem session_id stored && negb (Dict.mem session_id kept).

(** ** Sample data: the scenarios of the specification *)

Definition manager0 : SessionManager :=
  {| storage_path := "sessions";
     generate_session_summary_sync := fun _ => Ok "summary" |}.

(** An empty storage directory with working files; the clock reads 100. *)
Definition fresh_world : world :=
  mkWorld Absent Absent Healthy Healthy 100
          (fun _ => "0f8fad5b-d9cb-469f-a165-70867728950e") 0 [].

(** Session A of the first scenario: memory disabled, three messages. *)
Definition session_A : ChatSession.t :=
  ChatSession.mk "A"
    [Message.mk user "hello" 51;
     Message.mk assistant "hi" 52;
     Message.mk user "bye" 53]
    50 true false [].

Definition summary_A : SessionSummary.t :=
  SessionSummary.mk "A" "summary" 3 50 100.

(** A session whose [start_time] is later than the clock of
    [fresh_world]. *)
Definition late_session : ChatSession.t :=
  ChatSession.mk "L" [] 200 true true [].

Definition day_record (start_time : string) : json :=
  JObj [("start_time", JStr start_time); ("is_active", JBool false)].

Definition five_sessions : dict :=
  [("s1", day_record "2024-01-03");
   ("s2", day_record "2024-01-01");
   ("s3", day_record "2024-01-05");
   ("s4", day_record "2024-01-02");
   ("s5", day_record "2024-01-04")].

Definition four_summaries : dict :=
  [("s2", JStr "second"); ("zz", JStr "other");
   ("s4", JStr "fourth"); ("s1", JStr "first")].

(** The second scenario: five sessions, one per day. *)
Definition five_days : world :=
  mkWorld (Doc (JObj five_sessions)) (Doc (JObj four_summaries))
          Healthy Healthy 100 (fun _ => "") 0 [].

(** The same store when the sessions file cannot be opened for writing. *)
Definition five_days_locked : world :=
  mkWorld (Doc (JObj five_sessions)) (Doc (JObj four_summaries))
          OpenFails Healthy 100 (fun _ => "") 0 [].

(** A store of two sessions, one of which has a number where the text of
    its [start_time] should be. *)
Definition mixed_start_times : world :=
  mkWorld (Doc (JObj [("s1", day_record "2024-01-03");
                      ("s2", JObj [("start_time", JNum 20240101)])]))
          (Doc (JObj [])) Healthy Healthy 100 (fun _ => "") 0 [].

(** The same store when only the summaries file cannot be opened for
    writing. *)
Definition five_days_half_locked : world :=
  mkWorld (Doc (JObj five_sessions)) (Doc (JObj four_summaries))
          Healthy OpenFails 100 (fun _ => "") 0 [].

(** ** Words for the further facts *)

(** Both stored collections, where they are dictionaries, have no key
    twice. *)
Definition store_wf (w : world) : Prop :=
  (forall d, sessions_json w = Doc (JObj d) -> Dict.wf d) /\
  (forall d, summaries_json w = Doc (JObj d) -> Dict.wf d).

(** A record is a dictionary. *)
Definition is_dict (record : json) : Prop := exists kv, record = JObj kv.

(** What [l[:k]] keeps of a list of [n] items. *)
Definition slice_length (k : Z) (n : nat) : nat :=
  Nat.min n (Z.to_nat (if k <? 0 then Z.max 0 (k + Z.of_nat n) else k)).

(** ** More sample data *)

(** A manager whose summarizer fails. *)
Definition silent_manager : SessionManager :=
  {| storage_path := "sessions";
     generate_session_summary_sync := fun _ => Raise SummarizerError |}.

(** The store of the second scenario when [json.dump] fails on the
    sessions file. *)
Definition five_days_dump_fails : world :=
  mkWorld (Doc (JObj five_sessions)) (Doc (JObj four_summaries))
          DumpFails Healthy 100 (fun _ => "") 0 [].

(** An unreadable sessions file that can be written. *)
Definition garbled_world : world :=
  mkWorld Unreadable Absent Healthy Healthy 100 (fun _ => "") 0 [].

(** A sessions file that holds a JSON list. *)
Definition list_world : world :=
  mkWorld (Doc (JArr [JStr "A"])) Absent Healthy Healthy 100
          (fun _ => "") 0 [].

(** Three summaries, the first and the last ending at the same time. *)
Definition summary_P : SessionSummary.t := SessionSummary.mk "P" "p" 1 10 70.
Definition summary_Q : SessionSummary.t := SessionSummary.mk "Q" "q" 2 20 90.
Definition summary_R : SessionSummary.t := SessionSummary.mk "R" "r" 3 30 70.

(** Session A while it is active, and a second active session. *)
Definition session_B : ChatSession.t :=
  ChatSession.mk "B" [] 60 true true [].

(** A store with the three summaries, in that order. *)
Definition tied_world : world :=
  mkWorld Absent
          (Doc (JObj [("P", @SessionSummary.to_dict decimal_text summary_P);
                      ("Q", @SessionSummary.to_dict decimal_text summary_Q);
                      ("R", @SessionSummary.to_dict decimal_text summary_R)]))
          Healthy Healthy 100 (fun _ => "") 0 [].

(** A summaries file that holds the record of summary A and, under a
    second key, a record cut short. *)
Definition cut_short_summaries : dict :=
  [("A", @SessionSummary.to_dict decimal_text summary_A);
   ("Z", JObj [("session_id", JStr "Z")])].

Definition one_cut_short : world :=
  mkWorld Absent (Doc (JObj cut_short_summaries))
          Healthy Healthy 100
          (fun _ => "0f8fad5b-d9cb-469f-a165-70867728950e") 0 [].

(** * Facts about the run time

    ** Sorting *)

Section SortFacts.
Variables A K : Type.
Variable lt : K -> K -> res bool.
Variable ltb : K -> K -> bool.
Variable P : K -> Prop.
Hypothesis lt_ok : forall a b, P a -> P b -> lt a b = Ok (ltb a b).
Hypothesis ltb_asym : forall a b, ltb a b = true -> ltb b a = false.

Lemma insert_desc_spec (x : K * A) (l : list (K * A)) :
  P (fst x) -> Forall (fun y => P (fst y)) l -> Sorted (desc ltb) l ->
  exists l', insert_desc lt x l = Ok l' /\ Permutation (x :: l) l' /\
             Sorted (desc ltb) l' /\
             (forall z, desc ltb z x -> HdRel (desc ltb) z l -> HdRel (desc ltb) z l').
Proof.
  intros Px. induction l as [|y ys IH]; intros HP Hs.
  - exists [x]. simpl. repeat split; auto.
  - inversion HP as [|? ? Py HPys]; subst.
    inversion Hs as [|? ? Hsys Hhd]; subst.
    simpl. rewrite (lt_ok Px Py). simpl.
    destruct (ltb (fst x) (fst y)) eqn:E.
    + destruct (IH HPys Hsys) as (r & -> & Hperm & Hsr & Hhdr). simpl.
      exists (y :: r). repeat split.
      * rewrite perm_swap. now constructor.
      * constructor; auto. apply Hhdr; auto. now apply ltb_asym.
      * intros z _ Hz. inversion Hz; subst. now constructor.
    + exists (x :: y :: ys). repeat split; auto.
Qed.

Lemma sort_desc_spec (l : list (K * A)) :
  Forall (fun y => P (fst y)) l ->
  exists l', sort_desc lt l = Ok l' /\ Permutation l l' /\ Sorted (desc ltb) l'.
Proof.
  induction l as [|x xs IH]; intros HP.
  - exists []. simpl. auto.
  - inversion HP as [|? ? Px HPxs]; subst.
    destruct (IH HPxs) as (r & Hr & Hperm & Hsr).
    simpl. rewrite Hr. simpl.
    assert (HPr : Forall (fun y => P (fst y)) r).
    { rewrite Forall_forall in *. intros y Hy. apply HPxs.
      eapply Permutation_in; [symmetry|]; eauto. }
    destruct (@insert_desc_spec x r Px HPr Hsr) as (l' & Hl' & Hp' & Hs' & _).
    exists l'. repeat split; auto.
    rewrite <- Hp'. now constructor.
Qed.
End SortFacts.

(** The sort keeps items of equal key in their order. *)

Section SortStable.
Variables A K : Type.
Variable lt : K -> K -> res bool.
Variable ltb : K -> K -> bool.
Hypothesis lt_ok : forall a b, lt a b = Ok (ltb a b).

(** [q] picks keys none of which is less than another one: the items of
    equal key, for instance. *)
Variable q : K -> bool.
Hypothesis q_ties : forall a b, q a = true -> q b = true -> ltb a b = false.

Lemma insert_desc_stable (x : K * A) (l l' : list (K * A)) :
  insert_desc lt x l = Ok l' ->
  filter (fun y => q (fst y)) l' = filter (fun y => q (fst y)) (x :: l).
Proof.
  revert l'. induction l as [|y ys IH]; simpl; intros l'.
  - now intros [= <-].
  - rewrite lt_ok. simpl. destruct (ltb (fst x) (fst y)) eqn:E.
    + destruct (insert_desc lt x ys) as [r|]; simpl; [|discriminate].
      intros [= <-]. simpl. rewrite (IH r eq_refl). simpl.
      destruct (q (fst x)) eqn:Qx, (q (fst y)) eqn:Qy; auto.
      now rewrite (q_ties Qx Qy) in E.
    + now intros [= <-].
Qed.

Lemma sort_desc_stable (l l' : list (K * A)) :
  sort_desc lt l = Ok l' ->
  filter (fun y => q (fst y)) l' = filter (fun y => q (fst y)) l.
Proof.
  revert l'. induction l as [|x xs IH]; simpl; intros l'.
  - now intros [= <-].
  - destruct (sort_desc lt xs) as [r|]; simpl; [|discriminate].
    intros Hins. rewrite (insert_desc_stable _ _ Hins). simpl.
    now rewrite (IH r eq_refl).
Qed.
End SortStable.

(** ** The order of strings *)

Lemma ascii_compare_lt_trans (a b c : ascii) :
  Ascii.compare a b = Lt -> Ascii.compare b c = Lt -> Ascii.compare a c = Lt.
Proof.
  unfold Ascii.compare. rewrite !N.compare_lt_iff. lia.
Qed.

Lemma ascii_compare_refl (a : ascii) : Ascii.compare a a = Eq.
Proof. unfold Ascii.compare. apply N.compare_refl. Qed.

Lemma string_compare_lt_trans (a b c : string) :
  String.compare a b = Lt -> String.compare b c = Lt -> String.compare a c = Lt.
Proof.
  revert b c. induction a as [|x a IH]; intros [|y b] [|z c]; simpl;
    try congruence.
  destruct (Ascii.compare x y) eqn:Exy; try discriminate;
  destruct (Ascii.compare y z) eqn:Eyz; try discriminate; intros H1 H2.
  - apply Ascii.compare_eq_iff in Exy, Eyz. subst.
    rewrite ascii_compare_refl. eauto.
  - apply Ascii.compare_eq_iff in Exy. subst. now rewrite Eyz.
  - apply Ascii.compare_eq_iff in Eyz. subst. now rewrite Exy.
  - now rewrite (ascii_compare_lt_trans _ _ _ Exy Eyz).
Qed.

Lemma string_ltb_asym (a b : string) :
  String.ltb a b = true -> String.ltb b a = false.
Proof.
  unfold String.ltb. rewrite (String.compare_antisym b a).
  destruct (String.compare a b); simpl; congruence.
Qed.

Lemma string_ge_trans (a b c : string) :
  String.ltb a b = false -> String.ltb b c = false -> String.ltb a c = false.
Proof.
  unfold String.ltb. intros Hab Hbc.
  destruct (String.compare a c) eqn:Eac; auto. exfalso.
  destruct (String.compare a b) eqn:Eab; try discriminate.
  - apply String.compare_eq_iff in Eab. subst. now rewrite Eac in Hbc.
  - assert (Hba : String.compare b a = Lt).
    { rewrite String.compare_antisym, Eab. reflexivity. }
    now rewrite (string_compare_lt_trans _ _ _ Hba Eac) in Hbc.
Qed.

(** ** Dictionaries *)

Section DictFacts.
Variable V : Type.
Implicit Types (d : Dict.t V) (k : string) (v : V).

Lemma get_set_same k v d : Dict.get k (Dict.set k v d) = Some v.
Proof.
  induction d as [|[k' v'] d IH]; simpl.
  - now rewrite String.eqb_refl.
  - destruct (String.eqb k k') eqn:E; simpl; rewrite ?String.eqb_refl, ?E; auto.
Qed.

Lemma get_set_other k k' v d :
  k <> k' -> Dict.get k' (Dict.set k v d) = Dict.get k' d.
Proof.
  intros Hne. induction d as [|[k0 v0] d IH]; simpl.
  - apply String.eqb_neq in Hne. rewrite String.eqb_sym in Hne. now rewrite Hne.
  - destruct (String.eqb k k0) eqn:E; simpl.
    + apply String.eqb_eq in E. subst k0.
      assert (String.eqb k' k = false) as -> by (apply String.eqb_neq; congruence).
      reflexivity.
    + now rewrite IH.
Qed.

Lemma set_set_same k v v' d :
  Dict.set k v' (Dict.set k v d) = Dict.set k v' d.
Proof.
  induction d as [|[k0 v0] d IH]; simpl.
  - now rewrite String.eqb_refl.
  - destruct (String.eqb k k0) eqn:E; simpl; rewrite ?String.eqb_refl, ?E;
      congruence.
Qed.

Lemma mem_In_keys k d : Dict.mem k d = true <-> In k (Dict.keys d).
Proof.
  unfold Dict.mem. induction d as [|[k' v'] d IH]; simpl.
  - split; [discriminate | tauto].
  - destruct (String.eqb k k') eqn:E.
    + apply String.eqb_eq in E. subst. tauto.
    + apply String.eqb_neq in E. rewrite IH. split; [tauto|].
      intros [Heq|Hin]; [congruence | assumption].
Qed.

Lemma mem_false_not_In k d : Dict.mem k d = false <-> ~ In k (Dict.keys d).
Proof.
  rewrite <- mem_In_keys. destruct (Dict.mem k d); split; congruence.
Qed.



Lemma pop_removes k d : Dict.wf d -> ~ In k (Dict.keys (Dict.pop k d)).
Proof.
  unfold Dict.wf. induction d as [|[k' v'] d IH]; simpl; [tauto|].
  intros Hnd. inversion Hnd as [|? ? Hnin Hnd']; subst.
  destruct (String.eqb k k') eqn:E.
  - apply String.eqb_eq in E. now subst.
  - apply String.eqb_neq in E. simpl. intros [Heq|Hin]; [congruence|].
    now apply IH.
Qed.

Lemma pop_filter k d :
  Dict.wf d ->
  Dict.pop k d = filter (fun kv => negb (String.eqb k (fst kv))) d.
Proof.
  unfold Dict.wf. induction d as [|[k' v'] d IH]; simpl; auto.
  intros Hnd. inversion Hnd as [|? ? Hnin Hnd']; subst.
  destruct (String.eqb k k') eqn:E; simpl.
  - apply String.eqb_eq in E. subst k'.
    symmetry. apply forallb_filter_id. apply forallb_forall.
    intros [k0 v0] Hin. simpl. apply negb_true_iff, String.eqb_neq.
    intros ->. apply Hnin. change k0 with (fst (k0, v0)). now apply in_map.
  - now rewrite IH.
Qed.

Lemma wf_filter (f : string * V -> bool) d : Dict.wf d -> Dict.wf (filter f d).
Proof.
  unfold Dict.wf, Dict.keys. induction d as [|x d IH]; simpl; auto.
  intros Hnd. inversion Hnd as [|? ? Hnin Hnd']; subst.
  destruct (f x); simpl; auto. constructor; auto.
  intros Hin. apply Hnin. apply in_map_iff in Hin as (y & <- & Hy).
  apply in_map. now apply filter_In in Hy.
Qed.

Lemma pop_pop k k' d : Dict.pop k (Dict.pop k' d) = Dict.pop k' (Dict.pop k d).
Proof.
  induction d as [|[k0 v0] d IH]; simpl; auto.
  destruct (String.eqb k' k0) eqn:E1, (String.eqb k k0) eqn:E2; simpl;
    rewrite ?E1, ?E2; auto.
  - apply String.eqb_eq in E1, E2. now subst.
  - now rewrite IH.
Qed.

Lemma set_of_absent k v d : Dict.mem k d = false -> Dict.set k v d = d ++ [(k, v)].
Proof.
  unfold Dict.mem. induction d as [|[k' v'] d IH]; simpl; auto.
  destruct (String.eqb k k'); [discriminate|]. intros Hm. now rewrite IH.
Qed.

Lemma of_items_acc (l acc : list (string * V)) :
  NoDup (Dict.keys (acc ++ l)) ->
  fold_left (fun d kv => Dict.set (fst kv) (snd kv) d) l acc = acc ++ l.
Proof.
  revert acc. induction l as [|[k v] l IH]; intros acc Hnd; simpl.
  - now rewrite app_nil_r.
  - rewrite set_of_absent.
    + rewrite IH; rewrite <- app_assoc; auto.
    + apply mem_false_not_In. unfold Dict.keys in *. rewrite map_app in Hnd.
      simpl in Hnd. apply NoDup_remove_2 in Hnd. intros Hin. apply Hnd.
      apply in_or_app. now left.
Qed.

Lemma of_items_id (l : list (string * V)) : Dict.wf l -> Dict.of_items l = l.
Proof. intros Hwf. unfold Dict.of_items. now rewrite of_items_acc. Qed.

Lemma values_set_perm k v d :
  Permutation (v :: Dict.values (Dict.pop k d)) (Dict.values (Dict.set k v d)).
Proof.
  induction d as [|[k' v'] d IH]; simpl; auto.
  destruct (String.eqb k k'); simpl; auto.
  rewrite perm_swap. now constructor.
Qed.
End DictFacts.

(** ** Iteration that may raise *)

Lemma map_res_round {A B} (f : B -> res A) (g : A -> B) (l : list A) :
  (forall x, f (g x) = Ok x) -> map_res f (map g l) = Ok l.
Proof.
  intros Hfg. induction l as [|x l IH]; simpl; auto.
  now rewrite Hfg, IH.
Qed.


Lemma map_res_perm {A B} (f : A -> res B) (l l' : list A) (r : list B) :
  Permutation l l' -> map_res f l = Ok r ->
  exists r', map_res f l' = Ok r' /\ Permutation r r'.
Proof.
  intros Hp. revert r. induction Hp; intros r; simpl.
  - intros [= <-]. now exists [].
  - destruct (f x); simpl; [|discriminate].
    destruct (map_res f l) as [rl|] eqn:E; simpl; [|discriminate].
    intros [= <-]. destruct (IHHp rl eq_refl) as (r' & -> & Hr').
    simpl. exists (a :: r'). split; auto.
  - destruct (f y); simpl; [|discriminate].
    destruct (f x); simpl; [|discriminate].
    destruct (map_res f l); simpl; [|discriminate].
    intros [= <-]. eexists. split; [reflexivity|]. apply perm_swap.
  - intros Hr. destruct (IHHp1 r Hr) as (r1 & Hr1 & Hq1).
    destruct (IHHp2 r1 Hr1) as (r2 & Hr2 & Hq2).
    exists r2. split; auto. now transitivity r1.
Qed.

(** ** Records survive storage *)

Section RoundTrip.
Context `{TimestampText}.

Lemma Role_round r : Role_of_value (Role_value r) = Ok r.
Proof. now destruct r. Qed.

Lemma as_datetime_round t : as_datetime (JStr (isoformat t)) = Ok t.
Proof. unfold as_datetime. simpl. now rewrite fromisoformat_isoformat. Qed.

Lemma Message_round m : Message.from_dict (Message.to_dict m) = Ok m.
Proof.
  destruct m as [r c t]. unfold Message.from_dict, Message.to_dict.
  cbn [py_getitem Dict.get String.eqb Ascii.eqb Bool.eqb res_bind as_str
       Message.role Message.content Message.timestamp].
  now rewrite Role_round, as_datetime_round.
Qed.

Lemma SessionSummary_round s :
  SessionSummary.from_dict (SessionSummary.to_dict s) = Ok s.
Proof.
  destruct s as [i t n st en].
  unfold SessionSummary.from_dict, SessionSummary.to_dict.
  cbn [py_getitem Dict.get String.eqb Ascii.eqb Bool.eqb res_bind as_str
       as_int SessionSummary.session_id SessionSummary.summary
       SessionSummary.message_count SessionSummary.start_time
       SessionSummary.end_time].
  now rewrite !as_datetime_round.
Qed.

Lemma ChatSession_round s : ChatSession.from_dict (ChatSession.to_dict s) = Ok s.
Proof.
  destruct s as [i ms st a me ps].
  unfold ChatSession.from_dict, ChatSession.to_dict.
  cbn [py_getitem Dict.get String.eqb Ascii.eqb Bool.eqb res_bind as_str
       as_bool as_list ChatSession.session_id ChatSession.messages
       ChatSession.start_time ChatSession.is_active
       ChatSession.memory_enabled ChatSession.previous_summaries].
  rewrite (map_res_round _ _ _ Message_round).
  rewrite (map_res_round _ _ _ SessionSummary_round).
  now rewrite as_datetime_round.
Qed.
End RoundTrip.

(** * Facts about [SessionManager]

    ** Loading and saving *)

Lemma try_reraise {A} (c : M A) (w : world) :
  try_except c (fun e => raise e) w = c w.
Proof. unfold try_except, raise. now destruct (c w) as [[a|e] w']. Qed.

Lemma try_except_total {A} (c : M A) (a : A) (w : world) :
  exists r w', try_except c (fun _ => ret a) w = (Ok r, w').
Proof.
  unfold try_except, ret. destruct (c w) as [[r|e] w']; eauto.
Qed.

Lemma _load_sessions_run (w : world) :
  _load_sessions w = (Ok (loaded (sessions_json w)), w).
Proof.
  unfold _load_sessions, try_except, bind, path_exists, read_json, ret.
  simpl. destruct (sessions_json w) eqn:E; rewrite ?E; reflexivity.
Qed.

Lemma _load_summaries_run (w : world) :
  _load_summaries w = (Ok (loaded (summaries_json w)), w).
Proof.
  unfold _load_summaries, try_except, bind, path_exists, read_json, ret.
  simpl. destruct (summaries_json w) eqn:E; rewrite ?E; reflexivity.
Qed.

Section LoadSave.
Context `{TimestampText}.

Lemma load_session_run (session_id : string) (w : world) :
  load_session session_id w = (Ok (stored_session session_id w), w).
Proof.
  unfold load_session, stored_session, try_except, bind, lift, ret.
  rewrite _load_sessions_run.
  destruct (loaded (sessions_json w)) as [| | | s |l|d]; simpl; auto.
  - now destruct (String.index 0 session_id s).
  - now destruct (existsb _ l).
  - unfold Dict.mem. destruct (Dict.get session_id d); auto.
    now destruct (ChatSession.from_dict j).
Qed.

Lemma save_session_run (session : ChatSession.t) (w : world) :
  save_session session w =
  match loaded (sessions_json w) with
  | JObj d =>
      write_json sessions_file
        (JObj (Dict.set (ChatSession.session_id session)
                        (ChatSession.to_dict session) d)) w
  | _ => (Raise TypeError, w)
  end.
Proof.
  unfold save_session. rewrite try_reraise. unfold bind, lift.
  rewrite _load_sessions_run.
  now destruct (loaded (sessions_json w)).
Qed.

(** C6: [load_session] never raises and leaves the world as it is; it
    answers [None] when the id is not a key of the stored sessions, and
    answers the same [None] when the sessions file cannot be read or
    parsed (or is missing), so that a read failure cannot be told from an
    absent key. *)
Theorem load_session_not_found (session_id : string) (w : world) :
  (exists r, load_session session_id w = (Ok r, w)) /\
  (key_stored session_id w = false ->
   load_session session_id w = (Ok None, w)) /\
  (sessions_json w = Unreadable \/ sessions_json w = Absent ->
   load_session session_id w = (Ok None, w)).
Proof.
  rewrite load_session_run. split; [eauto|]. split.
  - unfold key_stored, stored_session, Dict.mem.
    destruct (loaded (sessions_json w)); auto.
    now destruct (Dict.get session_id kv).
  - unfold stored_session. now intros [-> | ->].
Qed.

(** C7: when the write of the sessions collection cannot succeed,
    [save_session] raises to its caller; when the write is reached, the
    error raised is the one of the write, [OSError], re-raised as it is;
    [save_session] returns normally only if the write went well and the
    collection now holds the record of the session; and whatever
    [save_session] raises is the error of the statement that failed (the
    [OSError] of the write, or the [TypeError] of storing into a
    collection that is no dictionary), never a [PersistenceError]. *)
Theorem save_session_raises_on_failed_write
  (session : ChatSession.t) (w : world) :
  (sessions_dev w <> Healthy ->
   exists e w', save_session session w = (Raise e, w')) /\
  (forall d, loaded (sessions_json w) = JObj d ->
             sessions_dev w <> Healthy ->
             exists w', save_session session w = (Raise OSError, w')) /\
  (forall w', save_session session w = (Ok tt, w') ->
              sessions_dev w = Healthy /\
              exists d, sessions_json w' = Doc (JObj d) /\
                        Dict.get (ChatSession.session_id session) d
                        = Some (ChatSession.to_dict session)) /\
  (forall e w', save_session session w = (Raise e, w') ->
                (e = OSError \/ e = TypeError) /\ e <> PersistenceError).
Proof.
  rewrite save_session_run. unfold write_json. simpl.
  split; [|split; [|split]].
  - intros Hdev. destruct (loaded (sessions_json w)); eauto.
    destruct (sessions_dev w); [congruence | eauto | eauto].
  - intros d -> Hdev.
    destruct (sessions_dev w); [congruence | eauto | eauto].
  - intros w'. destruct (loaded (sessions_json w)); try discriminate.
    destruct (sessions_dev w); try discriminate.
    intros [= <-]. split; [reflexivity|]. simpl.
    eexists. split; [reflexivity|]. apply get_set_same.
  - intros e w'.
    destruct (loaded (sessions_json w)); try destruct (sessions_dev w);
      intros [= <- _]; (split; [auto | discriminate]).
Qed.
Lemma save_session_ok (session : ChatSession.t) (w w' : world) :
  save_session session w = (Ok tt, w') ->
  exists d, loaded (sessions_json w) = JObj d /\ sessions_dev w = Healthy /\
    w' = put sessions_file
           (Doc (JObj (Dict.set (ChatSession.session_id session)
                                (ChatSession.to_dict session) d)))
           (logged sessions_file w).
Proof.
  rewrite save_session_run. unfold write_json. simpl.
  destruct (loaded (sessions_json w)); try discriminate.
  destruct (sessions_dev w); try discriminate.
  intros [= <-]. eauto.
Qed.

Lemma save_session_returns (session : ChatSession.t) (w : world) (d : dict) :
  loaded (sessions_json w) = JObj d -> sessions_dev w = Healthy ->
  exists w', save_session session w = (Ok tt, w').
Proof.
  intros Hd Hdev. rewrite save_session_run, Hd. unfold write_json. simpl.
  rewrite Hdev. eauto.
Qed.

Lemma load_after_save (session : ChatSession.t) (w w' : world) :
  save_session session w = (Ok tt, w') ->
  load_session (ChatSession.session_id session) w' = (Ok (Some session), w').
Proof.
  intros Hsave. apply save_session_ok in Hsave as (d & Hd & Hdev & ->).
  rewrite load_session_run. unfold stored_session. simpl.
  now rewrite get_set_same, ChatSession_round.
Qed.

Lemma load_others_after_save (session : ChatSession.t) (w w' : world)
      (other : string) :
  save_session session w = (Ok tt, w') ->
  other <> ChatSession.session_id session ->
  fst (load_session other w') = fst (load_session other w).
Proof.
  intros Hsave Hother. apply save_session_ok in Hsave as (d & Hd & _ & ->).
  rewrite !load_session_run. unfold stored_session. simpl. rewrite Hd.
  rewrite get_set_other by congruence. reflexivity.
Qed.

Lemma save_twice (session session2 : ChatSession.t) (w w' w2 : world) :
  ChatSession.session_id session2 = ChatSession.session_id session ->
  save_session session w = (Ok tt, w') ->
  save_session session2 w' = (Ok tt, w2) ->
  sessions_json w2 = sessions_json (snd (save_session session2 w)).
Proof.
  intros Hid Hsave Hsave2.
  apply save_session_ok in Hsave as (d & Hd & Hdev & ->).
  apply save_session_ok in Hsave2 as (d2 & Hd2 & _ & ->).
  simpl in Hd2. injection Hd2 as <-.
  rewrite save_session_run, Hd. unfold write_json. simpl.
  rewrite Hdev. simpl. now rewrite Hid, set_set_same.
Qed.

(** C5: on every store whose sessions file is writable and holds a
    collection (or is missing or unreadable, which loads as the empty
    one), [save_session] returns; whenever it returns, [load_session]
    with the id of the session gives back the session, equal in all
    fields, and with any other id gives what it gave before; and a second
    save under the same id replaces the stored record: the load gives the
    second session, and the collection is the one that saving the second
    session alone would have produced. *)
Theorem save_then_load_round_trip (session : ChatSession.t) (w : world) :
  (forall d, loaded (sessions_json w) = JObj d -> sessions_dev w = Healthy ->
             exists w', save_session session w = (Ok tt, w')) /\
  (forall w',
      save_session session w = (Ok tt, w') ->
      load_session (ChatSession.session_id session) w'
      = (Ok (Some session), w') /\
      (forall other,
          other <> ChatSession.session_id session ->
          fst (load_session other w') = fst (load_session other w)) /\
      (forall session2 w2,
          ChatSession.session_id session2 = ChatSession.session_id session ->
          save_session session2 w' = (Ok tt, w2) ->
          load_session (ChatSession.session_id session) w2
          = (Ok (Some session2), w2) /\
          sessions_json w2 = sessions_json (snd (save_session session2 w)))).
Proof.
  split; [apply save_session_returns|].
  intros w' Hsave. split; [now apply (load_after_save _ _ Hsave)|].
  split; [intros other Hother; now apply (@load_others_after_save session w w')|].
  intros session2 w2 Hid Hsave2. split.
  - rewrite <- Hid. now apply (load_after_save _ _ Hsave2).
  - eapply save_twice; eauto.
Qed.
End LoadSave.

(** ** Summaries *)

Section Summaries.
Context `{TimestampText}.

Lemma _load_all_summaries_run (w : world) :
  _load_all_summaries w = (Ok (sorted_summaries (summaries_json w)), w).
Proof.
  unfold _load_all_summaries, sorted_summaries, try_except, bind, lift, ret.
  rewrite _load_summaries_run.
  destruct (py_values (loaded (summaries_json w))) as [records|]; simpl; auto.
  destruct (map_res SessionSummary.from_dict records) as [ss|]; simpl; auto.
  now destruct (sort_desc datetime_lt (map by_end_time ss)).
Qed.

Lemma later_first_of_desc (l : list (Z * SessionSummary.t)) :
  Forall (fun y => fst y = SessionSummary.end_time (snd y)) l ->
  Sorted (desc Z.ltb) l ->
  StronglySorted later_first (map snd l).
Proof.
  intros Hkey Hs. apply Sorted_StronglySorted.
  - intros a b c. unfold later_first. lia.
  - induction Hs as [|y l Hs IH Hhd]; simpl; constructor.
    + apply IH. now inversion Hkey.
    + inversion Hkey as [|? ? Hy Hl]; subst.
      destruct Hhd as [|z l Hyz]; simpl; constructor.
      inversion Hl as [|? ? Hz _]; subst.
      unfold desc in Hyz. unfold later_first.
      rewrite Hy, Hz in Hyz. lia.
Qed.

Lemma sorted_summaries_spec (f : file) (ss : list SessionSummary.t) :
  (let? records := py_values (loaded f) in
   map_res SessionSummary.from_dict records) = Ok ss ->
  Permutation ss (sorted_summaries f) /\
  StronglySorted later_first (sorted_summaries f).
Proof.
  unfold sorted_summaries.
  destruct (py_values (loaded f)) as [records|]; simpl; [|discriminate].
  intros ->. simpl.
  destruct (@sort_desc_spec SessionSummary.t Z datetime_lt Z.ltb
              (fun _ => True)) with (l := map by_end_time ss)
    as (l' & -> & Hperm & Hs).
  - reflexivity.
  - intros a b. lia.
  - apply Forall_forall. auto.
  - split.
    + rewrite <- (map_id ss) at 1.
      rewrite <- (map_ext (fun x => snd (by_end_time x)) (fun x => x))
        by reflexivity.
      rewrite <- map_map. now apply Permutation_map.
    + apply later_first_of_desc; auto.
      apply Forall_forall. intros y Hy.
      apply (Permutation_in _ (Permutation_sym Hperm)) in Hy.
      apply in_map_iff in Hy as (x & <- & _). reflexivity.
Qed.

Lemma sorted_summaries_degraded (f : file) (e : exn) :
  (let? records := py_values (loaded f) in
   map_res SessionSummary.from_dict records) = Raise e ->
  sorted_summaries f = [].
Proof.
  unfold sorted_summaries.
  destruct (py_values (loaded f)) as [records|]; simpl; auto.
  now intros ->.
Qed.

(** C2: in every store state [get_session_summaries] returns normally and
    changes nothing; it returns the persisted summaries, all of them,
    most recent [end_time] first (and the empty list when the stored
    collection cannot be read as summaries); [create_session] with memory
    enabled attaches exactly that list as [previous_summaries], with
    memory disabled it attaches the empty list; and [create_session]
    writes nothing: both stored collections are as before and no write
    was attempted. *)
Theorem create_session_previous_summaries (w : world) :
  exists l,
    get_session_summaries w = (Ok l, w) /\
    (forall ss, persisted_summaries w = Ok ss ->
                Permutation ss l /\ StronglySorted later_first l) /\
    (forall e, persisted_summaries w = Raise e -> l = []) /\
    (forall memory_enabled, exists s w1,
        create_session memory_enabled w = (Ok s, w1) /\
        ChatSession.previous_summaries s = (if memory_enabled then l else []) /\
        ChatSession.memory_enabled s = memory_enabled /\
        storage w1 = storage w /\ write_log w1 = write_log w).
Proof.
  exists (sorted_summaries (summaries_json w)). split; [|split; [|split]].
  - apply _load_all_summaries_run.
  - intros ss Hss. now apply sorted_summaries_spec.
  - intros e He. now apply (sorted_summaries_degraded _ He).
  - intros memory_enabled.
    unfold create_session, bind, uuid4, now, ret.
    destruct memory_enabled.
    + rewrite _load_all_summaries_run. simpl. eauto 10.
    + simpl. eauto 10.
Qed.

Lemma _save_summary_ok (summary : SessionSummary.t) (w w' : world) :
  _save_summary summary w = (Ok tt, w') ->
  exists d, loaded (summaries_json w) = JObj d /\ summaries_dev w = Healthy /\
    w' = put summaries_file
           (Doc (JObj (Dict.set (SessionSummary.session_id summary)
                                (SessionSummary.to_dict summary) d)))
           (logged summaries_file w).
Proof.
  unfold _save_summary. rewrite try_reraise. unfold bind, lift.
  rewrite _load_summaries_run. unfold write_json. simpl.
  destruct (loaded (summaries_json w)); try discriminate. simpl.
  destruct (summaries_dev w); try discriminate.
  intros [= <-]. eauto.
Qed.

(** The summary that [close_session] builds. *)
Lemma close_session_ok (self : SessionManager) (session s' : ChatSession.t)
      (sm : SessionSummary.t) (w w' : world) :
  close_session self session w = (Ok (s', Some sm), w') ->
  s' = ChatSession.set_is_active false session /\
  (exists text,
      generate_session_summary_sync self s' = Ok text /\
      sm = SessionSummary.mk (ChatSession.session_id session) text
             (Z.of_nat (length (ChatSession.messages session)))
             (ChatSession.start_time session) (clock w)) /\
  exists w1, _save_summary sm w = (Ok tt, w1) /\
             save_session s' w1 = (Ok tt, w').
Proof.
  unfold close_session, bind, try_except, lift, now, ret.
  destruct (generate_session_summary_sync self
              (ChatSession.set_is_active false session)) as [text|] eqn:Et;
    [|discriminate].
  match goal with
  | |- context [_save_summary ?x w] =>
      destruct (_save_summary x w) as [[[]|] w1] eqn:E1; [|discriminate]
  end.
  destruct (save_session (ChatSession.set_is_active false session) w1)
    as [[[]|] w2] eqn:E2; [|discriminate].
  intros [= <- <- <-]. split; [reflexivity|]. split; eauto.
Qed.

Lemma close_session_succeeds (self : SessionManager) (session : ChatSession.t)
      (w : world) (text : string) (summaries sessions : dict) :
  generate_session_summary_sync self (ChatSession.set_is_active false session)
  = Ok text ->
  loaded (summaries_json w) = JObj summaries -> summaries_dev w = Healthy ->
  loaded (sessions_json w) = JObj sessions -> sessions_dev w = Healthy ->
  exists sm w',
    close_session self session w
    = (Ok (ChatSession.set_is_active false session, Some sm), w').
Proof.
  intros Ht Hsum Hdev1 Hses Hdev2.
  unfold close_session, bind, try_except, lift, now, ret. rewrite Ht.
  unfold _save_summary. rewrite try_reraise. unfold bind, lift.
  rewrite _load_summaries_run, Hsum. unfold write_json at 1. simpl.
  rewrite Hdev1. rewrite save_session_run. simpl. rewrite Hses.
  unfold write_json. simpl. rewrite Hdev2. eauto.
Qed.

(** X21: [close_session] never raises, whatever fails inside it, and the
    caller's session is inactive when it returns, also when it answers
    [None] and nothing was stored. *)
Lemma close_session_marks_inactive (self : SessionManager)
      (session : ChatSession.t) (w : world) :
  exists r w',
    close_session self session w
    = (Ok (ChatSession.set_is_active false session, r), w').
Proof.
  unfold close_session, bind.
  match goal with
  | |- context [try_except ?c ?h w] =>
      destruct (try_except_total c None w) as (r & w' & ->)
  end.
  unfold ret. eauto.
Qed.

Lemma summary_after_close (self : SessionManager)
      (session s' : ChatSession.t) (sm : SessionSummary.t) (w w' : world) :
  close_session self session w = (Ok (s', Some sm), w') ->
  ChatSession.is_active s' = false /\
  SessionSummary.session_id sm = ChatSession.session_id session /\
  SessionSummary.message_count sm
  = Z.of_nat (length (ChatSession.messages session)) /\
  SessionSummary.start_time sm = ChatSession.start_time session /\
  SessionSummary.end_time sm = clock w /\
  (ChatSession.start_time session <= clock w ->
   SessionSummary.start_time sm <= SessionSummary.end_time sm) /\
  exists d,
    loaded (summaries_json w) = JObj d /\
    summaries_json w'
    = Doc (JObj (Dict.set (ChatSession.session_id session)
                          (SessionSummary.to_dict sm) d)) /\
    forall others,
      map_res SessionSummary.from_dict
        (Dict.values (Dict.pop (ChatSession.session_id session) d))
      = Ok others ->
      exists l, get_session_summaries w' = (Ok l, w') /\
                Permutation (sm :: others) l /\
                In sm l /\
                StronglySorted later_first l.
Proof.
  intros Hclose.
  apply close_session_ok in Hclose
    as (-> & (text & _ & ->) & w1 & Hsum & Hsave).
  simpl. repeat (split; [reflexivity || auto|]).
  apply _save_summary_ok in Hsum as (d & Hd & _ & ->).
  apply save_session_ok in Hsave as (d' & _ & _ & ->).
  simpl in *. exists d. split; [assumption|]. split; [reflexivity|].
  intros others Hothers.
  match goal with
  | |- context [SessionSummary.to_dict ?x] => set (sm := x)
  end.
  unfold get_session_summaries. rewrite _load_all_summaries_run. simpl.
  assert (Hall : map_res SessionSummary.from_dict
                   (SessionSummary.to_dict sm ::
                    Dict.values (Dict.pop (ChatSession.session_id session) d))
                 = Ok (sm :: others)).
  { simpl. now rewrite SessionSummary_round, Hothers. }
  destruct (map_res_perm _ (values_set_perm _ _ _) Hall) as (r & Hr & Hperm).
  destruct (sorted_summaries_spec
              (Doc (JObj (Dict.set (ChatSession.session_id session)
                                   (SessionSummary.to_dict sm) d))) (ss := r))
    as (Hp & Hs).
  { simpl. exact Hr. }
  eexists. split; [reflexivity|]. split; [now transitivity r|]. split; auto.
  apply (Permutation_in sm (Permutation_trans Hperm Hp)). now left.
Qed.

(** A session made by [create_session] starts at the clock's reading; if
    the clock has not gone back when it is closed, whatever was appended
    to it meanwhile, its summary does not end before it starts. *)
Lemma created_session_closes_in_order (self : SessionManager)
      (memory_enabled : bool) (w0 w1 w w' : world)
      (created session s' : ChatSession.t) (sm : SessionSummary.t) :
  create_session memory_enabled w0 = (Ok created, w1) ->
  ChatSession.start_time session = ChatSession.start_time created ->
  clock w0 <= clock w ->
  close_session self session w = (Ok (s', Some sm), w') ->
  SessionSummary.start_time sm <= SessionSummary.end_time sm.
Proof.
  intros Hcreate Hstart Hclock Hclose.
  apply summary_after_close in Hclose as (_ & _ & _ & _ & _ & Hle & _).
  apply Hle. rewrite Hstart.
  unfold create_session, bind, uuid4, now, ret in Hcreate.
  destruct memory_enabled.
  - rewrite _load_all_summaries_run in Hcreate.
    injection Hcreate as <- _. simpl. exact Hclock.
  - injection Hcreate as <- _. simpl. exact Hclock.
Qed.

(** C1: when the summarizer answers and both files hold a collection and
    are writable, [close_session] succeeds; and every
    [close_session] that succeeds leaves the session inactive and returns
    a summary with the id of the session, the number of its messages, its
    [start_time], and the clock's reading at close as [end_time], which
    is not before [start_time] whenever the session did not start after
    that reading; whatever [memory_enabled] is, the summary is upserted
    into the summaries collection under the id of the session, and, the
    summaries stored under the other ids being readable,
    [get_session_summaries] afterwards returns it together with them,
    most recent [end_time] first. *)
Theorem close_session_summary (self : SessionManager)
        (session : ChatSession.t) (w : world) :
  (forall text summaries sessions,
      generate_session_summary_sync self
        (ChatSession.set_is_active false session) = Ok text ->
      loaded (summaries_json w) = JObj summaries ->
      summaries_dev w = Healthy ->
      loaded (sessions_json w) = JObj sessions ->
      sessions_dev w = Healthy ->
      exists sm w',
        close_session self session w
        = (Ok (ChatSession.set_is_active false session, Some sm), w')) /\
  (forall s' sm w',
      close_session self session w = (Ok (s', Some sm), w') ->
      ChatSession.is_active s' = false /\
      SessionSummary.session_id sm = ChatSession.session_id session /\
      SessionSummary.message_count sm
      = Z.of_nat (length (ChatSession.messages session)) /\
      SessionSummary.start_time sm = ChatSession.start_time session /\
      SessionSummary.end_time sm = clock w /\
      (ChatSession.start_time session <= clock w ->
       SessionSummary.start_time sm <= SessionSummary.end_time sm) /\
      exists d,
        loaded (summaries_json w) = JObj d /\
        summaries_json w'
        = Doc (JObj (Dict.set (ChatSession.session_id session)
                              (SessionSummary.to_dict sm) d)) /\
        forall others,
          map_res SessionSummary.from_dict
            (Dict.values (Dict.pop (ChatSession.session_id session) d))
          = Ok others ->
          exists l, get_session_summaries w' = (Ok l, w') /\
                    Permutation (sm :: others) l /\
                    In sm l /\
                    StronglySorted later_first l).
Proof.
  split.
  - intros text summaries sessions. apply close_session_succeeds.
  - intros s' sm w'. apply summary_after_close.
Qed.
End Summaries.

(** ** Deleting *)

Lemma get_session_history_run (w : world) :
  get_session_history w
  = (Ok (match loaded (sessions_json w) with
         | JObj d => Dict.keys d
         | _ => []
         end), w).
Proof.
  unfold get_session_history, try_except, bind, lift, ret.
  rewrite _load_sessions_run. now destruct (loaded (sessions_json w)).
Qed.

Lemma delete_session_absent (session_id : string) (w : world) :
  key_stored session_id w = false ->
  delete_session session_id w = (Ok false, w).
Proof.
  unfold key_stored, delete_session, delete_session_try, try_except, bind,
    lift, ret.
  rewrite _load_sessions_run.
  destruct (loaded (sessions_json w)) as [| | |s|l|d]; simpl; auto.
  - now destruct (String.index 0 session_id s).
  - now destruct (existsb _ l).
  - now intros ->.
Qed.

Lemma delete_session_try_present (session_id : string) (w : world) (d : dict) :
  loaded (sessions_json w) = JObj d ->
  Dict.mem session_id d = true ->
  delete_session_try session_id w
  = match sessions_dev w with
    | Healthy =>
        (Ok true,
         put sessions_file (Doc (JObj (Dict.pop session_id d)))
             (logged sessions_file w))
    | OpenFails => (Raise OSError, logged sessions_file w)
    | DumpFails =>
        (Raise OSError, put sessions_file Unreadable (logged sessions_file w))
    end.
Proof.
  intros Hd Hmem.
  unfold delete_session_try, bind, lift, ret, write_json.
  rewrite _load_sessions_run, Hd. simpl. rewrite Hmem. simpl.
  now destruct (sessions_dev w).
Qed.

(** C8: [delete_session] on an id that is not stored answers [False] and
    changes nothing; on a stored id, when the rewrite
    of the sessions collection goes well, it answers [True], the
    collection is the former one without the id, and the id is not in a
    later [get_session_history]; on a stored id whose rewrite fails it
    answers [False]; in every case the summaries collection is as before
    and no write to it was attempted. *)
Theorem delete_session_result (session_id : string) (w : world) :
  (key_stored session_id w = false ->
   delete_session session_id w = (Ok false, w)) /\
  (forall d,
      loaded (sessions_json w) = JObj d -> Dict.wf d ->
      Dict.mem session_id d = true -> sessions_dev w = Healthy ->
      exists w',
        delete_session session_id w = (Ok true, w') /\
        sessions_json w' = Doc (JObj (Dict.pop session_id d)) /\
        exists ids, get_session_history w' = (Ok ids, w') /\
                    ~ In session_id ids) /\
  (key_stored session_id w = true -> sessions_dev w <> Healthy ->
   exists w', delete_session session_id w = (Ok false, w')) /\
  summaries_json (snd (delete_session session_id w)) = summaries_json w /\
  ~ In summaries_file
       (skipn (length (write_log w))
              (write_log (snd (delete_session session_id w)))).
Proof.
  split; [apply delete_session_absent|]. split; [|split].
  - intros d Hd Hwf Hmem Hdev. unfold delete_session, try_except.
    rewrite (delete_session_try_present _ _ Hd Hmem), Hdev.
    eexists. split; [reflexivity|]. split; [reflexivity|].
    rewrite get_session_history_run. simpl.
    eexists. split; [reflexivity|]. now apply pop_removes.
  - unfold key_stored. intros Hk Hdev.
    destruct (loaded (sessions_json w)) as [| | | | |d] eqn:Hd;
      try discriminate.
    unfold delete_session, try_except.
    rewrite (delete_session_try_present _ _ Hd Hk).
    destruct (sessions_dev w); [congruence | |]; unfold ret; eauto.
  - destruct (key_stored session_id w) eqn:Hk.
    + unfold key_stored in Hk.
      destruct (loaded (sessions_json w)) as [| | | | |d] eqn:Hd;
        try discriminate.
      unfold delete_session, try_except.
      rewrite (delete_session_try_present _ _ Hd Hk).
      destruct (sessions_dev w); simpl;
        rewrite skipn_app, skipn_all, Nat.sub_diag; simpl;
        (split; [reflexivity|]); intros [Hf|[]]; discriminate.
    + rewrite (delete_session_absent _ _ Hk). simpl.
      rewrite skipn_all. auto.
Qed.

(** ** Statistics and active sessions *)

Lemma is_active_flag_record (kv : dict) :
  is_active_flag (JObj kv) = Ok (stored_is_active (JObj kv)).
Proof.
  unfold is_active_flag, stored_is_active. simpl.
  now destruct (Dict.get "is_active" kv).
Qed.

Lemma is_active_flags (records : list json) :
  Forall session_record records ->
  map_res is_active_flag records = Ok (map stored_is_active records).
Proof.
  induction 1 as [|r records (kv & -> & _) _ IH]; cbn [map_res map]; auto.
  rewrite is_active_flag_record, IH. reflexivity.
Qed.

Lemma messages_lens (records : list json) :
  Forall session_record records ->
  map_res messages_len records = Ok (map stored_message_count records).
Proof.
  induction 1 as [|r records (kv & -> & Hm) _ IH]; cbn [map_res map]; auto.
  rewrite IH. unfold messages_len, stored_message_count. simpl.
  now destruct Hm as [-> | (l & ->)].
Qed.

Lemma count_true_map {A} (f : A -> bool) (l : list A) :
  length (filter (fun b => b) (map f l)) = length (filter f l).
Proof.
  induction l as [|x l IH]; simpl; auto.
  destruct (f x); simpl; auto.
Qed.

Lemma map_res_remove {A B} (f : A -> res B) (l1 l2 : list A) (x : A)
      (r : list B) :
  map_res f (l1 ++ x :: l2) = Ok r ->
  exists r1 y r2,
    r = r1 ++ y :: r2 /\ f x = Ok y /\
    map_res f l1 = Ok r1 /\ map_res f l2 = Ok r2 /\
    map_res f (l1 ++ l2) = Ok (r1 ++ r2).
Proof.
  revert r. induction l1 as [|a l1 IH]; simpl; intros r.
  - destruct (f x) as [y|]; simpl; [|discriminate].
    destruct (map_res f l2) as [r2|]; simpl; [|discriminate].
    intros [= <-]. exists [], y, r2. auto.
  - destruct (f a) as [b|]; simpl; [|discriminate].
    destruct (map_res f (l1 ++ x :: l2)) as [r'|]; simpl; [|discriminate].
    intros [= <-].
    destruct (IH r' eq_refl) as (r1 & y & r2 & -> & Hy & H1 & H2 & H12).
    exists (b :: r1), y, r2. rewrite H1, H12. simpl. auto.
Qed.

Section Stats.
Context `{TimestampText}.
Variable self : SessionManager.

Lemma get_storage_stats_run (w : world) :
  get_storage_stats self w
  = (Ok (match fst (get_storage_stats_try self w) with
         | Ok r => r
         | Raise _ => []
         end), w).
Proof.
  unfold get_storage_stats, try_except, get_storage_stats_try, bind, lift, ret.
  rewrite _load_sessions_run, _load_summaries_run.
  destruct (py_values (loaded (sessions_json w))); simpl; auto.
  destruct (map_res is_active_flag a); simpl; auto.
  destruct (map_res messages_len a); simpl; auto.
  destruct (py_len (loaded (sessions_json w))); simpl; auto.
  destruct (py_len (loaded (summaries_json w))); simpl; auto.
Qed.

(** C9: [get_storage_stats] never raises and changes nothing; its answer
    is either empty or has the fields
    [total_sessions], [active_sessions], [total_summaries],
    [total_messages] and [storage_path], in that order; whenever its
    [try] block raises, the answer is the empty dictionary; and over
    stored session records it reports the number of stored sessions, the
    number of those whose [is_active] flag is true, the number of stored
    summaries, the sum of the message counts of the stored sessions, and
    the storage path. *)
Theorem get_storage_stats_fields (w : world) :
  (exists r, get_storage_stats self w = (Ok r, w) /\
             (r = [] \/
              Dict.keys r = ["total_sessions"; "active_sessions";
                             "total_summaries"; "total_messages";
                             "storage_path"])) /\
  (forall e w', get_storage_stats_try self w = (Raise e, w') ->
                get_storage_stats self w = (Ok [], w)) /\
  (forall d sm,
      loaded (sessions_json w) = JObj d ->
      Forall session_record (Dict.values d) ->
      loaded (summaries_json w) = JObj sm ->
      get_storage_stats self w
      = (Ok [("total_sessions", JNum (Z.of_nat (length d)));
             ("active_sessions",
              JNum (Z.of_nat (length (filter stored_is_active
                                             (Dict.values d)))));
             ("total_summaries", JNum (Z.of_nat (length sm)));
             ("total_messages",
              JNum (fold_right Z.add 0
                      (map stored_message_count (Dict.values d))));
             ("storage_path", JStr (storage_path self))], w)).
Proof.
  split; [|split].
  - rewrite get_storage_stats_run. eexists. split; [reflexivity|].
    unfold get_storage_stats_try, bind, lift, ret.
    rewrite _load_sessions_run, _load_summaries_run.
    destruct (py_values (loaded (sessions_json w))); simpl; auto.
    destruct (map_res is_active_flag a); simpl; auto.
    destruct (map_res messages_len a); simpl; auto.
    destruct (py_len (loaded (sessions_json w))); simpl; auto.
    destruct (py_len (loaded (summaries_json w))); simpl; auto.
  - intros e w' Htry. rewrite get_storage_stats_run, Htry. reflexivity.
  - intros d sm Hd Hrec Hsm. rewrite get_storage_stats_run.
    unfold get_storage_stats_try, bind, lift, ret.
    rewrite _load_sessions_run, _load_summaries_run, Hd, Hsm. simpl.
    rewrite (is_active_flags Hrec), (messages_lens Hrec). simpl.
    now rewrite count_true_map.
Qed.
Lemma collect_active_skip (l1 l2 : list json) (kv : dict) :
  Dict.get "is_active" kv = None ->
  collect_active (l1 ++ JObj kv :: l2) = collect_active (l1 ++ l2).
Proof.
  intros Hkv. induction l1 as [|r l1 IH]; simpl.
  - now rewrite Hkv.
  - now rewrite IH.
Qed.

Lemma get_active_sessions_run (w : world) :
  get_active_sessions w
  = (Ok (match (let? records := py_values (loaded (sessions_json w)) in
                collect_active records) with
         | Ok l => l
         | Raise _ => []
         end), w).
Proof.
  unfold get_active_sessions, try_except, bind, lift, ret.
  rewrite _load_sessions_run.
  destruct (py_values (loaded (sessions_json w))); simpl; auto.
  now destruct (collect_active a).
Qed.

(** C10: a stored session record without an [is_active] field counts
    as inactive: [get_active_sessions] answers what it would answer if
    the record were not stored, and the [active_sessions] that
    [get_storage_stats] reports is the number it would report without
    the record. *)
Theorem record_without_is_active_is_inactive
        (w : world) (d1 d2 : dict) (k : string) (kv : dict) :
  Dict.get "is_active" kv = None ->
  let w_with :=
    put sessions_file (Doc (JObj (d1 ++ (k, JObj kv) :: d2))) w in
  let w_without := put sessions_file (Doc (JObj (d1 ++ d2))) w in
  fst (get_active_sessions w_with) = fst (get_active_sessions w_without) /\
  (forall r n,
      fst (get_storage_stats self w_with) = Ok r ->
      Dict.get "active_sessions" r = Some n ->
      exists r', fst (get_storage_stats self w_without) = Ok r' /\
                 Dict.get "active_sessions" r' = Some n).
Proof.
  intros Hkv w_with w_without. split.
  - rewrite !get_active_sessions_run. subst w_with w_without. simpl.
    unfold Dict.values. rewrite !map_app. simpl.
    now rewrite collect_active_skip.
  - intros r n. rewrite !get_storage_stats_run.
    unfold get_storage_stats_try, bind, lift, ret.
    rewrite !_load_sessions_run, !_load_summaries_run.
    subst w_with w_without. simpl.
    unfold Dict.values. rewrite !map_app. simpl.
    destruct (map_res is_active_flag (map snd d1 ++ JObj kv :: map snd d2))
      as [flags|] eqn:Ef; simpl; [|intros [= <-]; discriminate].
    destruct (map_res messages_len (map snd d1 ++ JObj kv :: map snd d2))
      as [lens|] eqn:El; simpl; [|intros [= <-]; discriminate].
    apply map_res_remove in Ef as (f1 & y & f2 & -> & Hy & _ & _ & ->).
    apply map_res_remove in El as (n1 & m & n2 & -> & _ & _ & _ & ->).
    rewrite is_active_flag_record in Hy. unfold stored_is_active in Hy.
    rewrite Hkv in Hy. injection Hy as <-. simpl.
    destruct (py_len (loaded (summaries_json w))); simpl;
      [|intros [= <-]; discriminate].
    intros [= <-]. simpl. intros [= <-].
    eexists. split; [reflexivity|]. simpl.
    rewrite !filter_app. reflexivity.
Qed.
End Stats.

(** ** Cleaning up *)

Lemma pop_all_obj (ids : list string) (sm : dict) :
  pop_all ids (JObj sm)
  = Ok (JObj (fold_left (fun acc k => Dict.pop k acc) ids sm)).
Proof.
  revert sm. induction ids as [|k ids IH]; intros sm; simpl; auto.
Qed.

Lemma fold_pop_filter (ids : list string) (sm : dict) :
  Dict.wf sm ->
  fold_left (fun acc k => Dict.pop k acc) ids sm
  = filter (fun kv => negb (existsb (String.eqb (fst kv)) ids)) sm.
Proof.
  revert sm. induction ids as [|k ids IH]; intros sm Hwf; simpl.
  - symmetry. apply forallb_filter_id. now apply forallb_forall.
  - rewrite pop_filter by assumption. rewrite IH by now apply wf_filter.
    clear. induction sm as [|[k' v] sm IHsm]; simpl; auto.
    rewrite (String.eqb_sym k' k).
    destruct (String.eqb k k'); simpl; rewrite IHsm; reflexivity.
Qed.

Lemma existsb_eqb_In (k : string) (l : list string) :
  existsb (String.eqb k) l = true <-> In k l.
Proof.
  rewrite existsb_exists. split.
  - intros (x & Hx & E). apply String.eqb_eq in E. now subst.
  - intros Hin. exists k. split; auto. apply String.eqb_refl.
Qed.

Lemma removed_ids (stored kept : dict) (k : string) :
  existsb (String.eqb k)
    (filter (fun k => negb (Dict.mem k kept)) (Dict.keys stored))
  = removed_id stored kept k.
Proof.
  unfold removed_id. apply eq_true_iff_eq.
  rewrite existsb_eqb_In, filter_In, andb_true_iff, mem_In_keys. tauto.
Qed.

(** X20: the summaries that [cleanup_old_sessions] removes are given by a
    set, which Python iterates in no fixed order; whatever the order, the
    loop leaves the same summaries collection, or raises the same way. *)
Lemma pop_all_order (ids ids' : list string) (summaries : json) :
  Permutation ids ids' -> pop_all ids summaries = pop_all ids' summaries.
Proof.
  intros Hp. revert summaries.
  induction Hp as [|k l l' _ IH|k k' l|l l' l'' _ IH1 _ IH2];
    intros summaries; simpl; auto.
  - destruct (py_pop summaries k); simpl; auto.
  - destruct summaries; simpl; auto. now rewrite pop_pop.
  - now rewrite IH1.
Qed.

Lemma StronglySorted_cross {A} (R : A -> A -> Prop) (l1 l2 : list A) :
  StronglySorted R (l1 ++ l2) ->
  forall x y, In x l1 -> In y l2 -> R x y.
Proof.
  induction l1 as [|a l1 IH]; simpl; intros Hs x y Hx Hy; [easy|].
  inversion Hs as [|? ? Hs' Hall]; subst.
  destruct Hx as [<-|Hx].
  - rewrite Forall_forall in Hall. apply Hall. apply in_or_app. now right.
  - now apply IH.
Qed.

Lemma text_ltb_asym (a b : json) : text_ltb a b = true -> text_ltb b a = false.
Proof.
  destruct a, b; simpl; try discriminate; auto. apply string_ltb_asym.
Qed.

Lemma by_start_time_text (x : string * json) :
  start_text (snd x) <> None ->
  by_start_time x = Ok (JStr (start_text_or_empty (snd x)), x).
Proof.
  unfold by_start_time, start_text_or_empty, start_text.
  destruct x as [k r]. simpl. destruct r; try congruence. simpl.
  destruct (Dict.get "start_time" kv) as [[]|]; congruence.
Qed.

Lemma keyed_by_start_time (d : dict) :
  Forall (fun r => start_text r <> None) (Dict.values d) ->
  map_res by_start_time d
  = Ok (map (fun x => (JStr (start_text_or_empty (snd x)), x)) d).
Proof.
  unfold Dict.values. induction d as [|x d IH]; cbn [map_res map]; auto.
  intros Hall. inversion Hall as [|? ? Hx Hd]; subst.
  rewrite by_start_time_text by assumption. simpl. now rewrite IH.
Qed.

Lemma not_older_of_desc (l : list (json * (string * json))) :
  Forall (fun y => fst y = JStr (start_text_or_empty (snd (snd y)))) l ->
  Sorted (desc text_ltb) l ->
  StronglySorted not_older (map snd l).
Proof.
  intros Hkey Hs. apply Sorted_StronglySorted.
  - intros a b c. unfold not_older. apply string_ge_trans.
  - induction Hs as [|y l Hs IH Hhd]; simpl; constructor.
    + apply IH. now inversion Hkey.
    + inversion Hkey as [|? ? Hy Hl]; subst.
      destruct Hhd as [|z l Hyz]; simpl; constructor.
      inversion Hl as [|? ? Hz _]; subst.
      unfold desc in Hyz. unfold not_older.
      now rewrite Hy, Hz in Hyz.
Qed.

Lemma rank_by_start_time_spec (d : dict) :
  Forall (fun r => start_text r <> None) (Dict.values d) ->
  exists ranked,
    rank_by_start_time (JObj d) = Ok ranked /\
    Permutation d ranked /\ StronglySorted not_older ranked.
Proof.
  intros Hall. unfold rank_by_start_time. simpl.
  rewrite keyed_by_start_time by assumption. simpl.
  set (keyed := map (fun x => (JStr (start_text_or_empty (snd x)), x)) d).
  destruct (@sort_desc_spec (string * json) json py_lt text_ltb
              (fun k => exists s, k = JStr s)) with (l := keyed)
    as (l' & -> & Hperm & Hs).
  - intros a b (s & ->) (s' & ->). reflexivity.
  - apply text_ltb_asym.
  - apply Forall_forall. intros y Hy. apply in_map_iff in Hy as (x & <- & _).
    simpl. eauto.
  - simpl. eexists. split; [reflexivity|]. split.
    + rewrite <- (map_id d) at 1.
      rewrite <- (map_ext (fun x => snd (JStr (start_text_or_empty (snd x)), x))
                          (fun x => x)) by reflexivity.
      rewrite <- map_map with (g := snd). now apply Permutation_map.
    + apply not_older_of_desc; auto.
      apply Forall_forall. intros y Hy.
      apply (Permutation_in _ (Permutation_sym Hperm)) in Hy.
      apply in_map_iff in Hy as (x & <- & _). reflexivity.
Qed.

Lemma py_slice_to_nonneg {A} (k : Z) (l : list A) :
  0 <= k -> py_slice_to k l = firstn (Z.to_nat k) l.
Proof.
  intros Hk. unfold py_slice_to.
  now destruct (Z.ltb_spec k 0); [lia|].
Qed.

Lemma wf_firstn (n : nat) (d d' : dict) :
  Dict.wf d -> Permutation d d' -> Dict.wf (firstn n d').
Proof.
  unfold Dict.wf, Dict.keys. intros Hwf Hperm.
  assert (Hnd : NoDup (map fst d')).
  { eapply Permutation_NoDup; [|exact Hwf]. now apply Permutation_map. }
  rewrite <- (firstn_skipn n d'), map_app in Hnd.
  now apply NoDup_app_remove_r in Hnd.
Qed.

(** C3: on a store of [M] sessions whose records carry their
    [start_time] as text (or carry none), for a keep count [N] with
    [0 <= N < M], when both rewrites go well, [cleanup_old_sessions]
    leaves exactly [N] sessions, all of them stored before and none
    ranked below a removed one by the stored text of [start_time]; and
    the summaries collection is the former one without the summaries
    keyed by the removed ids, the others as they were and in their
    order. *)
Theorem cleanup_keeps_most_recent (w : world) (d sm : dict) (keep_count : Z) :
  loaded (sessions_json w) = JObj d -> Dict.wf d ->
  Forall (fun r => start_text r <> None) (Dict.values d) ->
  loaded (summaries_json w) = JObj sm -> Dict.wf sm ->
  0 <= keep_count < Z.of_nat (length d) ->
  sessions_dev w = Healthy -> summaries_dev w = Healthy ->
  exists w' kept,
    cleanup_old_sessions keep_count w = (Ok tt, w') /\
    sessions_json w' = Doc (JObj kept) /\
    Z.of_nat (length kept) = keep_count /\
    Dict.wf kept /\ incl kept d /\
    (forall x y, In x kept -> In y d -> ~ In y kept -> not_older x y) /\
    summaries_json w'
    = Doc (JObj (filter (fun kv => negb (removed_id d kept (fst kv))) sm)).
Proof.
  intros Hd Hwf Hrec Hsm Hwfsm Hk Hdev1 Hdev2.
  destruct (@rank_by_start_time_spec d Hrec) as (ranked & Hrank & Hperm & Hsorted).
  set (kept := firstn (Z.to_nat keep_count) ranked).
  assert (Hwfk : Dict.wf kept) by (apply (@wf_firstn _ d ranked); assumption).
  unfold cleanup_old_sessions, try_except, cleanup_old_sessions_try, bind,
    lift, ret.
  rewrite _load_sessions_run, _load_summaries_run, Hd, Hsm. simpl py_len.
  cbv iota beta.
  destruct (Z.leb_spec (Z.of_nat (length d)) keep_count) as [Hle|_]; [lia|].
  rewrite Hrank. rewrite py_slice_to_nonneg by lia. fold kept.
  rewrite of_items_id by assumption.
  unfold write_json at 1. simpl dev. rewrite Hdev1.
  change (py_keys (JObj d)) with (Ok (Dict.keys d)). cbv iota beta.
  rewrite pop_all_obj, fold_pop_filter by assumption.
  unfold write_json. simpl dev. rewrite Hdev2.
  exists (put summaries_file
            (Doc (JObj (filter
                          (fun kv =>
                             negb (existsb (String.eqb (fst kv))
                                     (filter (fun k => negb (Dict.mem k kept))
                                             (Dict.keys d)))) sm)))
            (logged summaries_file
               (put sessions_file (Doc (JObj kept)) (logged sessions_file w)))),
         kept.
  split; [reflexivity|]. split; [reflexivity|]. split; [|split; [|split; [|split]]].
  - unfold kept. rewrite length_firstn.
    rewrite <- (Permutation_length Hperm). lia.
  - assumption.
  - intros x Hx. apply (Permutation_in _ (Permutation_sym Hperm)).
    rewrite <- (firstn_skipn (Z.to_nat keep_count) ranked).
    apply in_or_app. now left.
  - intros x y Hx Hy Hny.
    apply (Permutation_in _ Hperm) in Hy.
    rewrite <- (firstn_skipn (Z.to_nat keep_count) ranked) in Hy, Hsorted.
    apply in_app_or in Hy as [Hy|Hy]; [contradiction|].
    eapply StronglySorted_cross; eauto.
  - simpl. do 2 f_equal. apply filter_ext. intros kv.
    now rewrite removed_ids.
Qed.

(** C4: [cleanup_old_sessions] never raises; it changes nothing at all when the number of stored sessions is at most the keep
    count; and a failure before the sessions collection is rewritten
    (counting or ranking the sessions raises, or the sessions file cannot
    be opened for writing) leaves both collections as they were. *)
Theorem cleanup_failure_handling (keep_count : Z) (w : world) :
  (exists w', cleanup_old_sessions keep_count w = (Ok tt, w')) /\
  (forall n, py_len (loaded (sessions_json w)) = Ok n -> n <= keep_count ->
             cleanup_old_sessions keep_count w = (Ok tt, w)) /\
  (forall e, py_len (loaded (sessions_json w)) = Raise e \/
             rank_by_start_time (loaded (sessions_json w)) = Raise e ->
             cleanup_old_sessions keep_count w = (Ok tt, w)) /\
  (sessions_dev w = OpenFails ->
   storage (snd (cleanup_old_sessions keep_count w)) = storage w).
Proof.
  split; [|split; [|split]].
  - unfold cleanup_old_sessions, try_except, ret.
    destruct (cleanup_old_sessions_try keep_count w) as [[[]|e] w']; eauto.
  - intros n Hn Hle.
    unfold cleanup_old_sessions, try_except, cleanup_old_sessions_try, bind,
      lift, ret.
    rewrite _load_sessions_run, _load_summaries_run, Hn.
    now destruct (Z.leb_spec n keep_count); [|lia].
  - intros e He.
    unfold cleanup_old_sessions, try_except, cleanup_old_sessions_try, bind,
      lift, ret.
    rewrite _load_sessions_run, _load_summaries_run.
    destruct (py_len (loaded (sessions_json w))) as [n|]; auto.
    destruct (n <=? keep_count); auto.
    destruct He as [He|He]; [discriminate|]. now rewrite He.
  - intros Hdev.
    unfold cleanup_old_sessions, try_except, cleanup_old_sessions_try, bind,
      lift, ret.
    rewrite _load_sessions_run, _load_summaries_run.
    destruct (py_len (loaded (sessions_json w))) as [n|]; auto.
    destruct (n <=? keep_count); auto.
    destruct (rank_by_start_time (loaded (sessions_json w))); auto.
    unfold write_json at 1. simpl dev. now rewrite Hdev.
Qed.

(** ** What the store holds after [save_session]

    The records that [save_session] writes are of the kind that the facts
    about statistics and cleanup ask for, and writing keeps the keys of a
    collection distinct. *)

Section StoredRecords.
Context `{TimestampText}.

Lemma to_dict_session_record (s : ChatSession.t) :
  session_record (ChatSession.to_dict s).
Proof.
  eexists. split; [reflexivity|]. right. eexists. reflexivity.
Qed.

Lemma to_dict_start_text (s : ChatSession.t) :
  start_text (ChatSession.to_dict s)
  = Some (isoformat (ChatSession.start_time s)).
Proof. reflexivity. Qed.

Lemma to_dict_stored_is_active (s : ChatSession.t) :
  stored_is_active (ChatSession.to_dict s) = ChatSession.is_active s.
Proof. reflexivity. Qed.

Lemma to_dict_stored_message_count (s : ChatSession.t) :
  stored_message_count (ChatSession.to_dict s)
  = Z.of_nat (length (ChatSession.messages s)).
Proof.
  unfold stored_message_count. simpl. now rewrite length_map.
Qed.
End StoredRecords.

Section WfFacts.
Variable V : Type.
Implicit Types (d : Dict.t V) (k : string) (v : V).

Lemma keys_set k v d :
  Dict.keys (Dict.set k v d)
  = if Dict.mem k d then Dict.keys d else Dict.keys d ++ [k].
Proof.
  unfold Dict.mem. induction d as [|[k' v'] d IH]; simpl; auto.
  destruct (String.eqb k k') eqn:E; simpl.
  - apply String.eqb_eq in E. now subst.
  - rewrite IH. now destruct (Dict.get k d).
Qed.

Lemma wf_set k v d : Dict.wf d -> Dict.wf (Dict.set k v d).
Proof.
  unfold Dict.wf. intros Hwf. rewrite keys_set.
  destruct (Dict.mem k d) eqn:E; auto.
  apply mem_false_not_In in E.
  apply NoDup_app; auto.
  - repeat constructor. simpl. tauto.
  - intros a Ha [<-|[]]. contradiction.
Qed.

Lemma wf_pop k d : Dict.wf d -> Dict.wf (Dict.pop k d).
Proof.
  intros Hwf. rewrite pop_filter by assumption. now apply wf_filter.
Qed.
End WfFacts.

(** * The scenarios of the specification, run on the model *)

Section Scenarios.
#[local] Existing Instance decimal_text.

(** First scenario: session A, memory disabled, three messages, is
    closed in an empty store; the summaries collection then has exactly
    one entry, keyed "A", with a message count of 3, and a session created
    next with memory enabled has that one summary attached. *)
Example scenario_close_then_create :
  let closed := close_session manager0 session_A fresh_world in
  let created := create_session true (snd closed) in
  fst closed = Ok (ChatSession.set_is_active false session_A, Some summary_A) /\
  summaries_json (snd closed)
  = Doc (JObj [("A", SessionSummary.to_dict summary_A)]) /\
  exists B, fst created = Ok B /\ ChatSession.previous_summaries B = [summary_A].
Proof.
  split; [reflexivity|]. split; [reflexivity|].
  eexists. split; [vm_compute; reflexivity | reflexivity].
Qed.

(** Second scenario: of five sessions, one per day, a cleanup that keeps
    three retains the three most recent days and removes the two oldest
    with their summaries. *)
Example scenario_cleanup :
  let cleaned := cleanup_old_sessions 3 five_days in
  fst cleaned = Ok tt /\
  sessions_json (snd cleaned)
  = Doc (JObj [("s3", day_record "2024-01-05");
               ("s5", day_record "2024-01-04");
               ("s1", day_record "2024-01-03")]) /\
  summaries_json (snd cleaned)
  = Doc (JObj [("zz", JStr "other"); ("s1", JStr "first")]).
Proof. repeat split. Qed.

Lemma five_sessions_wf : Dict.wf five_sessions.
Proof.
  unfold Dict.wf. simpl. repeat constructor; simpl; intuition discriminate.
Defined.

Lemma four_summaries_wf : Dict.wf four_summaries.
Proof.
  unfold Dict.wf. simpl. repeat constructor; simpl; intuition discriminate.
Defined.

Lemma five_sessions_texts :
  Forall (fun r => start_text r <> None) (Dict.values five_sessions).
Proof. simpl. repeat constructor; discriminate. Defined.

(** Closing session A in an empty store: one summary, keyed "A", with
    three messages; a session created afterwards with memory sees it. *)
Lemma close_session_summary_witness :
  ChatSession.is_active (ChatSession.set_is_active false session_A) = false /\
  SessionSummary.message_count summary_A = 3 /\
  SessionSummary.start_time summary_A <= SessionSummary.end_time summary_A /\
  exists l,
    get_session_summaries (snd (close_session manager0 session_A fresh_world))
    = (Ok l, snd (close_session manager0 session_A fresh_world)) /\
    Permutation [summary_A] l.
Proof.
  destruct (@close_session_summary decimal_text manager0 session_A
              fresh_world) as (_ & Hclosed).
  destruct (Hclosed (ChatSession.set_is_active false session_A) summary_A
                    (snd (close_session manager0 session_A fresh_world))
                    eq_refl)
    as (Ha & _ & Hn & _ & _ & Hle & d & Hd & _ & Hget).
  injection Hd as <-.
  destruct (Hget [] eq_refl) as (l & Hl & Hp & _).
  split; [exact Ha|]. split; [exact Hn|]. split; [apply Hle; simpl; lia|].
  exists l. split; [exact Hl | exact Hp].
Defined.

(** A session that starts after the clock's reading at close gets a
    summary that ends before it starts. *)
Lemma close_session_end_before_start :
  exists s' sm w',
    close_session manager0 late_session fresh_world = (Ok (s', Some sm), w') /\
    SessionSummary.end_time sm < SessionSummary.start_time sm.
Proof.
  do 3 eexists. split; [reflexivity|]. simpl. lia.
Qed.

(** C2, where the claim fails: the summaries file holds the record of
    summary A, which reads back as summary A, next to one record that
    cannot be read; lines 203-212 then answer the empty list, and
    [create_session] with memory enabled attaches the empty list. *)
Lemma get_session_summaries_drops_readable_records :
  Dict.get "A" cut_short_summaries = Some (SessionSummary.to_dict summary_A) /\
  SessionSummary.from_dict (SessionSummary.to_dict summary_A) = Ok summary_A /\
  get_session_summaries one_cut_short = (Ok [], one_cut_short) /\
  exists w1,
    create_session true one_cut_short
    = (Ok (ChatSession.mk "0f8fad5b" [] 100 true true []), w1).
Proof.
  split; [reflexivity|]. split; [reflexivity|]. split; [reflexivity|].
  eexists. vm_compute. reflexivity.
Qed.

Lemma create_session_previous_summaries_witness :
  exists l s w1,
    Permutation [summary_A] l /\
    create_session true (snd (close_session manager0 session_A fresh_world))
    = (Ok s, w1) /\
    ChatSession.previous_summaries s = l.
Proof.
  destruct (@create_session_previous_summaries decimal_text
              (snd (close_session manager0 session_A fresh_world)))
    as (l & _ & Hsorted & _ & Hcreate).
  destruct (Hsorted [summary_A] eq_refl) as (Hp & _).
  destruct (Hcreate true) as (s & w1 & Hs & Hprev & _).
  exists l, s, w1. split; [exact Hp|]. split; [exact Hs | exact Hprev].
Defined.

Lemma cleanup_keeps_most_recent_witness :
  exists w' kept,
    cleanup_old_sessions 3 five_days = (Ok tt, w') /\
    sessions_json w' = Doc (JObj kept) /\
    Z.of_nat (length kept) = 3.
Proof.
  destruct (@cleanup_keeps_most_recent five_days five_sessions four_summaries 3
              eq_refl five_sessions_wf five_sessions_texts
              eq_refl four_summaries_wf)
    as (w' & kept & Hrun & Hs & Hlen & _).
  - simpl. lia.
  - reflexivity.
  - reflexivity.
  - exists w', kept. split; [exact Hrun|]. split; [exact Hs | exact Hlen].
Defined.

(** A negative keep count leaves all sessions but the last ranked ones; a
    sessions file that cannot be rewritten leaves all of them; and so does
    a [start_time] that does not compare with the others, since the sort
    raises and the exception is swallowed. *)
Lemma cleanup_keep_count_not_met :
  (-1 < Z.of_nat (length five_sessions) /\
   exists kept,
     sessions_json (snd (cleanup_old_sessions (-1) five_days))
     = Doc (JObj kept) /\
     Z.of_nat (length kept) = 4) /\
  (3 < Z.of_nat (length five_sessions) /\
   sessions_json (snd (cleanup_old_sessions 3 five_days_locked))
   = Doc (JObj five_sessions)) /\
  (rank_by_start_time (loaded (sessions_json mixed_start_times))
   = Raise TypeError /\
   cleanup_old_sessions 1 mixed_start_times = (Ok tt, mixed_start_times)).
Proof.
  split; [|split].
  - split; [simpl; lia|]. eexists. split; reflexivity.
  - split; [simpl; lia | reflexivity].
  - split; reflexivity.
Qed.

Lemma cleanup_failure_handling_witness :
  cleanup_old_sessions 5 five_days = (Ok tt, five_days) /\
  storage (snd (cleanup_old_sessions 3 five_days_locked))
  = storage five_days_locked.
Proof.
  destruct (cleanup_failure_handling 3 five_days_locked) as (_ & _ & _ & Hl).
  destruct (cleanup_failure_handling 5 five_days) as (_ & Hnoop & _).
  split.
  - apply (Hnoop 5); [reflexivity | lia].
  - apply Hl. reflexivity.
Defined.

(** The summaries file cannot be rewritten: the cleanup fails after the
    sessions collection was rewritten, which stays so. *)
Lemma cleanup_fails_half_way :
  fst (cleanup_old_sessions_try 3 five_days_half_locked) = Raise OSError /\
  fst (cleanup_old_sessions 3 five_days_half_locked) = Ok tt /\
  storage (snd (cleanup_old_sessions 3 five_days_half_locked))
  <> storage five_days_half_locked.
Proof.
  split; [reflexivity|]. split; [reflexivity|]. discriminate.
Qed.

Lemma save_then_load_round_trip_witness :
  load_session "A" (snd (save_session session_A fresh_world))
  = (Ok (Some session_A), snd (save_session session_A fresh_world)).
Proof.
  destruct (@save_then_load_round_trip decimal_text session_A fresh_world)
    as (_ & Hreturned).
  destruct (Hreturned (snd (save_session session_A fresh_world)) eq_refl)
    as (Hload & _ & _).
  exact Hload.
Defined.

Lemma load_session_not_found_witness :
  load_session "A" fresh_world = (Ok None, fresh_world) /\
  load_session "s9" five_days = (Ok None, five_days).
Proof.
  destruct (@load_session_not_found decimal_text "A" fresh_world)
    as (_ & _ & Hfile).
  destruct (@load_session_not_found decimal_text "s9" five_days)
    as (_ & Hkey & _).
  split.
  - apply Hfile. right. reflexivity.
  - apply Hkey. reflexivity.
Defined.

Lemma save_session_raises_on_failed_write_witness :
  exists w', save_session session_A five_days_locked = (Raise OSError, w').
Proof.
  destruct (@save_session_raises_on_failed_write decimal_text session_A
              five_days_locked) as (_ & Hwrite & _).
  apply (Hwrite five_sessions); [reflexivity | discriminate].
Defined.

(** C7, where the claim fails: the sessions file cannot be opened for
    writing; what [save_session] raises is the [OSError] of that write,
    which lines 60-62 log and re-raise as it is, not a
    [PersistenceError]. *)
Lemma save_session_reraises_the_write_error :
  exists w',
    save_session session_A five_days_locked = (Raise OSError, w') /\
    write_json sessions_file
      (JObj (Dict.set (ChatSession.session_id session_A)
                      (ChatSession.to_dict session_A) five_sessions))
      five_days_locked = (Raise OSError, w') /\
    OSError <> PersistenceError.
Proof.
  eexists. split; [|split]; [vm_compute; reflexivity | vm_compute; reflexivity | discriminate].
Qed.

Lemma delete_session_result_witness :
  delete_session "s9" five_days = (Ok false, five_days) /\
  (exists w', delete_session "s1" five_days = (Ok true, w')) /\
  (exists w', delete_session "s1" five_days_locked = (Ok false, w')).
Proof.
  destruct (delete_session_result "s9" five_days) as (Habsent & _).
  destruct (delete_session_result "s1" five_days) as (_ & Hpresent & _).
  destruct (delete_session_result "s1" five_days_locked)
    as (_ & _ & Hfail & _).
  split; [apply Habsent; reflexivity|]. split.
  - destruct (Hpresent five_sessions eq_refl five_sessions_wf eq_refl eq_refl)
      as (w' & Hw' & _).
    exists w'. exact Hw'.
  - apply Hfail; [reflexivity | discriminate].
Defined.

(** The sessions file cannot be rewritten: a stored id is not deleted,
    the answer is [False], and the id is still listed. *)
Lemma delete_session_present_answers_false :
  key_stored "s1" five_days_locked = true /\
  fst (delete_session "s1" five_days_locked) = Ok false /\
  exists ids,
    fst (get_session_history (snd (delete_session "s1" five_days_locked)))
    = Ok ids /\ In "s1" ids.
Proof.
  split; [reflexivity|]. split; [reflexivity|].
  eexists. split; [reflexivity|]. simpl. auto.
Qed.

Lemma five_sessions_records : Forall session_record (Dict.values five_sessions).
Proof.
  simpl. repeat constructor; eexists; (split; [reflexivity|]); now left.
Defined.

Lemma get_storage_stats_fields_witness :
  get_storage_stats manager0 five_days
  = (Ok [("total_sessions", JNum 5); ("active_sessions", JNum 0);
         ("total_summaries", JNum 4); ("total_messages", JNum 0);
         ("storage_path", JStr "sessions")], five_days).
Proof.
  destruct (get_storage_stats_fields manager0 five_days) as (_ & _ & Hok).
  exact (Hok five_sessions four_summaries eq_refl five_sessions_records eq_refl).
Defined.

(** A successful answer has no field [storage_location]; the storage
    path is under [storage_path]. *)
Lemma get_storage_stats_has_no_storage_location :
  exists r,
    get_storage_stats manager0 five_days = (Ok r, five_days) /\
    Dict.get "total_sessions" r = Some (JNum 5) /\
    Dict.get "storage_location" r = None /\
    Dict.get "storage_path" r = Some (JStr "sessions").
Proof.
  eexists. split; [reflexivity|]. repeat split; reflexivity.
Qed.

Lemma record_without_is_active_is_inactive_witness :
  fst (get_active_sessions
         (put sessions_file
              (Doc (JObj [("x", JObj [("session_id", JStr "x")])]))
              fresh_world))
  = Ok [].
Proof.
  destruct (@record_without_is_active_is_inactive decimal_text manager0
              fresh_world [] [] "x" [("session_id", JStr "x")] eq_refl)
    as (Hactive & _).
  exact Hactive.
Defined.
End Scenarios.

(** * Further facts about [SessionManager]

    ** Saving and deleting, composed *)

Section MoreDictFacts.
Variable V : Type.
Implicit Types (d : Dict.t V) (k : string) (v : V).

Lemma pop_set_absent k v d :
  Dict.mem k d = false -> Dict.pop k (Dict.set k v d) = d.
Proof.
  unfold Dict.mem. induction d as [|[k' v'] d IH]; simpl.
  - now rewrite String.eqb_refl.
  - destruct (String.eqb k k') eqn:E; [discriminate|]. simpl. rewrite E.
    intros Hm. now rewrite IH.
Qed.

Lemma get_pop_other k k' d : k <> k' -> Dict.get k' (Dict.pop k d) = Dict.get k' d.
Proof.
  intros Hne. induction d as [|[k0 v0] d IH]; simpl; auto.
  destruct (String.eqb k k0) eqn:E; simpl.
  - apply String.eqb_eq in E. subst k0.
    assert (String.eqb k' k = false) as -> by (apply String.eqb_neq; congruence).
    reflexivity.
  - now rewrite IH.
Qed.

Lemma wf_of_items_acc (l acc : list (string * V)) :
  Dict.wf acc ->
  Dict.wf (fold_left (fun d kv => Dict.set (fst kv) (snd kv) d) l acc).
Proof.
  revert acc. induction l as [|x l IH]; simpl; auto.
  intros acc Hwf. apply IH. now apply wf_set.
Qed.

Lemma wf_of_items (l : list (string * V)) : Dict.wf (Dict.of_items l).
Proof. apply wf_of_items_acc. constructor. Qed.

Lemma mem_pop_wf k d : Dict.wf d -> Dict.mem k (Dict.pop k d) = false.
Proof. intros Hwf. apply mem_false_not_In. now apply pop_removes. Qed.
Lemma keys_pop_wf k d :
  Dict.wf d ->
  Dict.keys (Dict.pop k d)
  = filter (fun k' => negb (String.eqb k k')) (Dict.keys d).
Proof.
  intros Hwf. rewrite pop_filter by assumption. unfold Dict.keys.
  clear. induction d as [|[k' v'] d IH]; simpl; auto.
  destruct (String.eqb k k'); simpl; now rewrite IH.
Qed.
End MoreDictFacts.

Section SaveDelete.
Context `{TimestampText}.

(** X1: on a sessions file that is unreadable or missing, [save_session]
    succeeds (the file being writable) and the file then holds the saved
    session alone: whatever the unreadable file held is gone.  On a file
    that holds a JSON document other than a dictionary it raises
    [TypeError] and nothing is written or attempted. *)
Theorem save_session_replaces_unreadable_file
        (session : ChatSession.t) (w : world) :
  (sessions_json w = Unreadable \/ sessions_json w = Absent ->
   sessions_dev w = Healthy ->
   exists w',
     save_session session w = (Ok tt, w') /\
     sessions_json w'
     = Doc (JObj [(ChatSession.session_id session,
                   ChatSession.to_dict session)])) /\
  (forall j, sessions_json w = Doc j -> (forall d, j <> JObj d) ->
             save_session session w = (Raise TypeError, w)).
Proof.
  rewrite save_session_run. unfold write_json. simpl. split.
  - intros [-> | ->] ->; simpl; eauto.
  - intros j -> Hj. simpl. destruct j; auto. now destruct (Hj kv).
Qed.

(** X2: a [save_session] that returns keeps the order of the stored ids:
    [get_session_history] lists the same ids as before when the id was
    stored, the saved session keeping its place, and the same ids followed
    by the new one when it was not. *)
Theorem save_session_keeps_order (session : ChatSession.t) (w w' : world) :
  save_session session w = (Ok tt, w') ->
  exists ids,
    get_session_history w = (Ok ids, w) /\
    get_session_history w'
    = (Ok (if key_stored (ChatSession.session_id session) w
           then ids else ids ++ [ChatSession.session_id session]), w').
Proof.
  intros Hsave. apply save_session_ok in Hsave as (d & Hd & _ & ->).
  rewrite !get_session_history_run. unfold key_stored. simpl. rewrite Hd.
  eexists. split; [reflexivity|]. now rewrite keys_set.
Qed.

Lemma delete_session_true (session_id : string) (w w' : world) :
  delete_session session_id w = (Ok true, w') ->
  exists d, loaded (sessions_json w) = JObj d /\
            Dict.mem session_id d = true /\ sessions_dev w = Healthy /\
            w' = put sessions_file (Doc (JObj (Dict.pop session_id d)))
                     (logged sessions_file w).
Proof.
  destruct (key_stored session_id w) eqn:Hk.
  - unfold key_stored in Hk.
    destruct (loaded (sessions_json w)) as [| | | | |d] eqn:Hd;
      try discriminate.
    unfold delete_session, try_except.
    rewrite (delete_session_try_present _ _ Hd Hk).
    destruct (sessions_dev w); unfold ret; try discriminate.
    intros [= <-]. eauto.
  - rewrite (delete_session_absent _ _ Hk). discriminate.
Qed.

(** X3: saving a session whose id was not stored and then deleting that
    id gives back the sessions collection as it loaded before; the
    deletion answers [True] and the summaries file is as it was. *)
Theorem delete_undoes_save_of_new_session
        (session : ChatSession.t) (w w' : world) :
  key_stored (ChatSession.session_id session) w = false ->
  save_session session w = (Ok tt, w') ->
  exists w2,
    delete_session (ChatSession.session_id session) w' = (Ok true, w2) /\
    loaded (sessions_json w2) = loaded (sessions_json w) /\
    summaries_json w2 = summaries_json w.
Proof.
  intros Hk Hsave. apply save_session_ok in Hsave as (d & Hd & Hdev & ->).
  unfold key_stored in Hk. rewrite Hd in Hk.
  unfold delete_session, try_except.
  erewrite delete_session_try_present; [|reflexivity|].
  - simpl. rewrite Hdev. eexists. split; [reflexivity|]. simpl.
    now rewrite pop_set_absent, Hd.
  - unfold Dict.mem. now rewrite get_set_same.
Qed.

(** X4: after a [delete_session] that answered [True], on a collection
    with distinct keys, deleting the same id again answers [False] and
    changes nothing, [load_session] no longer finds the id, every other id
    loads as before, and [get_session_history] lists the other ids in the
    order they had. *)
Theorem delete_session_removes_one (session_id : string) (w w' : world) :
  (forall d, sessions_json w = Doc (JObj d) -> Dict.wf d) ->
  delete_session session_id w = (Ok true, w') ->
  delete_session session_id w' = (Ok false, w') /\
  load_session session_id w' = (Ok None, w') /\
  (forall other, other <> session_id ->
                 fst (load_session other w') = fst (load_session other w)) /\
  (exists ids,
      get_session_history w = (Ok ids, w) /\
      get_session_history w'
      = (Ok (filter (fun k => negb (String.eqb session_id k)) ids), w')).
Proof.
  intros Hwf Hdel. apply delete_session_true in Hdel as (d & Hd & Hmem & _ & ->).
  assert (Hwfd : Dict.wf d).
  { destruct (sessions_json w) as [| |j]; simpl in Hd.
    - injection Hd as <-. constructor.
    - injection Hd as <-. constructor.
    - subst j. now apply Hwf. }
  assert (Hgone : key_stored session_id
                    (put sessions_file (Doc (JObj (Dict.pop session_id d)))
                         (logged sessions_file w)) = false).
  { unfold key_stored. simpl. now apply mem_pop_wf. }
  split; [now apply delete_session_absent|]. split; [|split].
  - rewrite load_session_run. unfold stored_session. simpl.
    unfold key_stored, Dict.mem in Hgone. simpl in Hgone.
    now destruct (Dict.get session_id (Dict.pop session_id d)).
  - intros other Hother. rewrite !load_session_run. unfold stored_session.
    simpl. rewrite Hd. now rewrite get_pop_other by congruence.
  - rewrite !get_session_history_run. simpl. rewrite Hd.
    eexists. split; [reflexivity|]. now rewrite keys_pop_wf.
Qed.
End SaveDelete.

(** ** Closing, when it fails and when it is repeated *)

Lemma loaded_wf (f : file) (d : dict) :
  (forall d', f = Doc (JObj d') -> Dict.wf d') ->
  loaded f = JObj d -> Dict.wf d.
Proof.
  intros Hwf Hd. destruct f as [| |j]; simpl in Hd.
  - injection Hd as <-. constructor.
  - injection Hd as <-. constructor.
  - subst j. now apply Hwf.
Qed.

Section Closing.
Context `{TimestampText}.
Variable self : SessionManager.

(** X5: when the summarizer fails, [close_session] answers [None] and
    writes nothing, neither summary nor session, yet the caller's session
    object is inactive from then on. *)
Theorem close_session_summarizer_fails
        (session : ChatSession.t) (w : world) (e : exn) :
  generate_session_summary_sync self (ChatSession.set_is_active false session)
  = Raise e ->
  close_session self session w
  = (Ok (ChatSession.set_is_active false session, None), w).
Proof.
  intros He. unfold close_session, bind, try_except, lift, ret.
  now rewrite He.
Qed.

(** X6: when the summary is written but the sessions file cannot be
    opened for writing, [close_session] answers [None] although the summary
    of the session is now in the summaries collection; the sessions
    collection is as before, so the stored session, if any, keeps its old
    state. *)
Theorem close_session_half_done
        (session : ChatSession.t) (w : world) (text : string)
        (summaries : dict) :
  generate_session_summary_sync self (ChatSession.set_is_active false session)
  = Ok text ->
  loaded (summaries_json w) = JObj summaries ->
  summaries_dev w = Healthy ->
  sessions_dev w = OpenFails ->
  exists w',
    close_session self session w
    = (Ok (ChatSession.set_is_active false session, None), w') /\
    summaries_json w'
    = Doc (JObj (Dict.set (ChatSession.session_id session)
                   (SessionSummary.to_dict
                      (SessionSummary.mk
                         (ChatSession.session_id session) text
                         (Z.of_nat (length (ChatSession.messages session)))
                         (ChatSession.start_time session) (clock w)))
                   summaries)) /\
    sessions_json w' = sessions_json w.
Proof.
  intros Ht Hsum Hdev1 Hdev2.
  unfold close_session, bind, try_except, lift, now, ret. rewrite Ht.
  unfold _save_summary. rewrite try_reraise. unfold bind, lift.
  rewrite _load_summaries_run, Hsum. unfold write_json at 1. simpl.
  rewrite Hdev1. rewrite save_session_run. simpl.
  destruct (loaded (sessions_json w)); simpl; eauto.
  unfold write_json. simpl. rewrite Hdev2. eauto.
Qed.

(** X7: closing an already closed session again (both calls succeeding,
    the store being the same in between) adds no entry to the summaries
    collection: the ids are the same, in the same order, the entry of the
    session is the second summary, whose [end_time] is the clock's reading
    at the second close, and the sessions collection does not change. *)
Theorem close_session_twice
        (session s1 s2 : ChatSession.t) (sm1 sm2 : SessionSummary.t)
        (w w1 w1' w2 : world) :
  close_session self session w = (Ok (s1, Some sm1), w1) ->
  storage w1' = storage w1 ->
  close_session self s1 w1' = (Ok (s2, Some sm2), w2) ->
  s2 = s1 /\
  SessionSummary.end_time sm2 = clock w1' /\
  sessions_json w2 = sessions_json w1 /\
  exists d1 d2,
    summaries_json w1 = Doc (JObj d1) /\
    summaries_json w2 = Doc (JObj d2) /\
    Dict.keys d2 = Dict.keys d1 /\
    Dict.get (ChatSession.session_id session) d2
    = Some (SessionSummary.to_dict sm2).
Proof.
  intros Hc1 Hst Hc2.
  apply close_session_ok in Hc1 as (-> & (t1 & _ & ->) & u1 & Hsum1 & Hsave1).
  apply close_session_ok in Hc2 as (-> & (t2 & _ & ->) & u2 & Hsum2 & Hsave2).
  apply _save_summary_ok in Hsum1 as (d & Hd & _ & ->).
  apply save_session_ok in Hsave1 as (e & He & _ & ->).
  apply _save_summary_ok in Hsum2 as (d' & Hd' & _ & ->).
  apply save_session_ok in Hsave2 as (e' & He' & _ & ->).
  unfold storage in Hst. simpl in Hst. injection Hst as Hses Hsums.
  simpl in *. rewrite Hsums in Hd'. rewrite Hses in He'. simpl in Hd', He'.
  injection Hd' as <-. injection He' as <-.
  split; [now destruct session|]. split; [reflexivity|]. split.
  - now rewrite set_set_same.
  - do 2 eexists. split; [reflexivity|]. split; [reflexivity|]. split.
    + rewrite keys_set. unfold Dict.mem. now rewrite get_set_same.
    + apply get_set_same.
Qed.
End Closing.

(** ** The active sessions *)

Lemma values_set_split {V} (k : string) (v : V) (d : Dict.t V) :
  exists l1 l2,
    Dict.values (Dict.set k v d) = l1 ++ v :: l2 /\
    Dict.values (Dict.pop k d) = l1 ++ l2.
Proof.
  induction d as [|[k' v'] d (l1 & l2 & Hs & Hp)]; simpl.
  - now exists [], [].
  - destruct (String.eqb k k'); simpl.
    + now exists [], (Dict.values d).
    + exists (v' :: l1), l2. simpl. now rewrite Hs, Hp.
Qed.

Lemma values_pop_incl {V} (k : string) (d : Dict.t V) :
  incl (Dict.values (Dict.pop k d)) (Dict.values d).
Proof.
  induction d as [|[k' v'] d IH]; simpl; [easy|].
  destruct (String.eqb k k'); simpl.
  - now apply incl_tl.
  - apply incl_cons; [now left | now apply incl_tl].
Qed.

Lemma filter_split_perm {A} (f : A -> bool) (l1 l2 : list A) (x : A) :
  f x = true ->
  Permutation (x :: filter f (l1 ++ l2)) (filter f (l1 ++ x :: l2)).
Proof.
  intros Hx. rewrite !filter_app. simpl. rewrite Hx.
  apply Permutation_middle.
Qed.

Section Active.
Context `{TimestampText}.

Lemma collect_active_inactive (l1 l2 : list json) (record : json) :
  is_dict record -> stored_is_active record = false ->
  collect_active (l1 ++ record :: l2) = collect_active (l1 ++ l2).
Proof.
  intros (kv & ->) Hoff. unfold stored_is_active in Hoff.
  induction l1 as [|r l1 IH]; simpl.
  - destruct (Dict.get "is_active" kv); simpl; now rewrite ?Hoff.
  - now rewrite IH.
Qed.

Lemma collect_active_filter (records : list json) :
  Forall is_dict records ->
  collect_active records
  = map_res ChatSession.from_dict (filter stored_is_active records).
Proof.
  induction 1 as [|r records (kv & ->) _ IH]; simpl; auto.
  destruct (Dict.get "is_active" kv) as [v|]; simpl.
  - destruct (py_truthy v); simpl; now rewrite IH.
  - exact IH.
Qed.

Lemma collect_active_not_dict (l1 l2 : list json) (record : json) :
  (forall kv, record <> JObj kv) ->
  exists e, collect_active (l1 ++ record :: l2) = Raise e.
Proof.
  intros Hr. induction l1 as [|r l1 (e & IH)]; simpl.
  - destruct record; simpl; eauto. now destruct (Hr kv).
  - rewrite IH. destruct (py_get r "is_active" (JBool false)); simpl; eauto.
    destruct (py_truthy a); eauto.
    destruct (ChatSession.from_dict r); simpl; eauto.
Qed.

(** X8: over a sessions collection whose records are dictionaries,
    [get_active_sessions] answers the sessions read from the records whose
    [is_active] is true, in storage order, and reads no other record; it
    answers the empty list as soon as one of those records cannot be read,
    and also as soon as any record of the collection, active or not, is
    not a dictionary. *)
Theorem get_active_sessions_answer (w : world) (d : dict) :
  loaded (sessions_json w) = JObj d ->
  (Forall is_dict (Dict.values d) ->
   forall l,
     map_res ChatSession.from_dict (filter stored_is_active (Dict.values d))
     = Ok l ->
     get_active_sessions w = (Ok l, w)) /\
  (Forall is_dict (Dict.values d) ->
   forall e,
     map_res ChatSession.from_dict (filter stored_is_active (Dict.values d))
     = Raise e ->
     get_active_sessions w = (Ok [], w)) /\
  (forall record,
      In record (Dict.values d) -> (forall kv, record <> JObj kv) ->
      get_active_sessions w = (Ok [], w)).
Proof.
  intros Hd. rewrite get_active_sessions_run, Hd. simpl.
  split; [|split].
  - intros Hall l Hl. now rewrite collect_active_filter, Hl.
  - intros Hall e He. now rewrite collect_active_filter, He.
  - intros record Hin Hr. apply in_split in Hin as (l1 & l2 & ->).
    now destruct (collect_active_not_dict l1 l2 Hr) as (e & ->).
Qed.

(** X9: after [save_session] of an active session into a sessions
    collection whose stored records are all dictionaries, the active
    records stored under other ids being readable, [get_active_sessions]
    lists the session, together with the sessions of those other active
    records. *)
Theorem saved_active_session_is_listed
        (session : ChatSession.t) (w w' : world) (d : dict)
        (others : list ChatSession.t) :
  save_session session w = (Ok tt, w') ->
  ChatSession.is_active session = true ->
  loaded (sessions_json w) = JObj d ->
  Forall is_dict (Dict.values d) ->
  map_res ChatSession.from_dict
    (filter stored_is_active
       (Dict.values (Dict.pop (ChatSession.session_id session) d)))
  = Ok others ->
  exists l,
    get_active_sessions w' = (Ok l, w') /\
    In session l /\ Permutation (session :: others) l.
Proof.
  intros Hsave Hon Hd Hall Hothers.
  apply save_session_ok in Hsave as (d' & Hd' & _ & ->).
  rewrite Hd in Hd'. injection Hd' as <-.
  rewrite get_active_sessions_run. simpl.
  destruct (values_set_split (ChatSession.session_id session)
              (ChatSession.to_dict session) d) as (l1 & l2 & Hs & Hp).
  rewrite Hs. rewrite Hp in Hothers.
  assert (Hdicts : Forall is_dict (l1 ++ ChatSession.to_dict session :: l2)).
  { rewrite <- Hs. apply Forall_forall. intros r Hr.
    apply (Permutation_in _ (Permutation_sym (values_set_perm _ _ _))) in Hr.
    destruct Hr as [<-|Hr]; [now eexists|].
    rewrite Forall_forall in Hall. apply Hall.
    eapply values_pop_incl; eassumption. }
  rewrite collect_active_filter by assumption.
  assert (Hact : stored_is_active (ChatSession.to_dict session) = true)
    by (now rewrite to_dict_stored_is_active).
  assert (Hall' : map_res ChatSession.from_dict
                    (ChatSession.to_dict session
                       :: filter stored_is_active (l1 ++ l2))
                  = Ok (session :: others)).
  { simpl. now rewrite ChatSession_round, Hothers. }
  destruct (map_res_perm _ (filter_split_perm stored_is_active l1 l2 _ Hact)
              Hall') as (l & -> & Hperm).
  exists l. split; [reflexivity|]. split; auto.
  apply (Permutation_in _ Hperm). now left.
Qed.
(** X10: after a [close_session] that succeeds, [get_active_sessions]
    answers what it would answer if the closed session were not stored at
    all: the closed session has left the list and nothing else changed in
    it. *)
Theorem closed_session_leaves_active_list
        (self : SessionManager) (session s' : ChatSession.t)
        (sm : SessionSummary.t) (w w' : world) (d : dict) :
  close_session self session w = (Ok (s', Some sm), w') ->
  loaded (sessions_json w) = JObj d ->
  fst (get_active_sessions w')
  = fst (get_active_sessions
           (put sessions_file
                (Doc (JObj (Dict.pop (ChatSession.session_id session) d))) w)).
Proof.
  intros Hclose Hd.
  apply close_session_ok in Hclose as (-> & _ & w1 & Hsum & Hsave).
  apply _save_summary_ok in Hsum as (ds & _ & _ & ->).
  apply save_session_ok in Hsave as (d' & Hd' & _ & ->).
  simpl in Hd'. rewrite Hd in Hd'. injection Hd' as <-.
  rewrite !get_active_sessions_run. simpl.
  destruct (values_set_split (ChatSession.session_id session)
              (ChatSession.to_dict (ChatSession.set_is_active false session))
              d) as (l1 & l2 & Hs & Hp).
  rewrite Hs, Hp. rewrite collect_active_inactive; auto.
  now eexists.
Qed.
End Active.

(** ** An invariant of the store *)

Lemma write_json_wf (p : path) (j : json) (w : world) :
  store_wf w -> (forall d, j = JObj d -> Dict.wf d) ->
  store_wf (snd (write_json p j w)).
Proof.
  intros [Hs Hm] Hj. unfold write_json, store_wf.
  destruct p; simpl.
  - destruct (sessions_dev w); simpl; split; auto.
    + intros d [= ->]. now apply Hj.
    + discriminate.
  - destruct (summaries_dev w); simpl; split; auto.
    + intros d [= ->]. now apply Hj.
    + discriminate.
Qed.

Lemma pop_all_wf (ids : list string) (j j' : json) :
  (forall d, j = JObj d -> Dict.wf d) ->
  pop_all ids j = Ok j' ->
  forall d, j' = JObj d -> Dict.wf d.
Proof.
  revert j. induction ids as [|k ids IH]; simpl; intros j Hj.
  - now intros [= <-].
  - destruct j; simpl; try discriminate. apply IH.
    intros d [= <-]. apply wf_pop. now apply Hj.
Qed.

Section Invariant.
Context `{TimestampText}.
Variable self : SessionManager.

Lemma save_session_wf (session : ChatSession.t) (w : world) :
  store_wf w -> store_wf (snd (save_session session w)).
Proof.
  intros Hwf. rewrite save_session_run.
  destruct (loaded (sessions_json w)) eqn:Hd; auto.
  apply write_json_wf; auto.
  intros d [= <-]. apply wf_set. exact (loaded_wf (proj1 Hwf) Hd).
Qed.

Lemma _save_summary_wf (summary : SessionSummary.t) (w : world) :
  store_wf w -> store_wf (snd (_save_summary summary w)).
Proof.
  intros Hwf. unfold _save_summary. rewrite try_reraise.
  unfold bind, lift. rewrite _load_summaries_run.
  destruct (loaded (summaries_json w)) eqn:Hd; auto. simpl.
  apply write_json_wf; auto.
  intros d [= <-]. apply wf_set. exact (loaded_wf (proj2 Hwf) Hd).
Qed.

(** X11: no method ever stores a key twice: if the keys of both stored
    collections are distinct, they still are after [save_session],
    [close_session], [delete_session] and [cleanup_old_sessions], whatever
    the arguments and whether the call succeeds, fails half way or is
    swallowed. *)
Theorem store_keys_stay_distinct (w : world) :
  store_wf w ->
  (forall session, store_wf (snd (save_session session w))) /\
  (forall session, store_wf (snd (close_session self session w))) /\
  (forall session_id, store_wf (snd (delete_session session_id w))) /\
  (forall keep_count, store_wf (snd (cleanup_old_sessions keep_count w))).
Proof.
  intros Hwf. split; [|split; [|split]].
  - intros session. now apply save_session_wf.
  - intros session. unfold close_session, bind, try_except, lift, now, ret.
    destruct (generate_session_summary_sync self _) as [text|]; auto.
    match goal with
    | |- context [_save_summary ?x w] =>
        pose proof (_save_summary_wf x Hwf) as Hsum;
        destruct (_save_summary x w) as [[[]|] w1]
    end; simpl in Hsum; auto.
    match goal with
    | |- context [save_session ?x w1] =>
        pose proof (save_session_wf x Hsum) as Hsave;
        destruct (save_session x w1) as [[[]|] w2]
    end; simpl in Hsave; auto.
  - intros session_id.
    unfold delete_session, try_except, delete_session_try, bind, lift, ret.
    rewrite _load_sessions_run.
    destruct (py_contains session_id (loaded (sessions_json w))) as [[]|];
      auto.
    destruct (loaded (sessions_json w)) eqn:Hd; simpl; auto.
    destruct (Dict.mem session_id kv); auto.
    match goal with
    | |- context [write_json ?p ?j w] =>
        assert (Hw : store_wf (snd (write_json p j w)));
        [|destruct (write_json p j w) as [[[]|] w1]; auto]
    end.
    apply write_json_wf; auto.
    intros d [= <-]. apply wf_pop. exact (loaded_wf (proj1 Hwf) Hd).
  - intros keep_count.
    unfold cleanup_old_sessions, try_except, cleanup_old_sessions_try, bind,
      lift, ret.
    rewrite _load_sessions_run, _load_summaries_run.
    destruct (py_len (loaded (sessions_json w))) as [n|]; auto.
    destruct (n <=? keep_count); auto.
    destruct (rank_by_start_time (loaded (sessions_json w))) as [ranked|];
      auto.
    match goal with
    | |- context [write_json ?p ?j w] =>
        assert (Hw : store_wf (snd (write_json p j w)));
        [|destruct (write_json p j w) as [[[]|] w1]; auto]
    end.
    { apply write_json_wf; auto. intros d [= <-]. apply wf_of_items. }
    simpl in Hw.
    destruct (py_keys (loaded (sessions_json w))) as [ids|]; auto.
    match goal with
    | |- context [pop_all ?i ?j] => destruct (pop_all i j) as [j'|] eqn:Hpop
    end; auto.
    match goal with
    | |- context [write_json ?p ?j w1] =>
        assert (Hw2 : store_wf (snd (write_json p j w1)));
        [|destruct (write_json p j w1) as [[[]|] w2]; auto]
    end.
    apply write_json_wf; auto.
    apply (pop_all_wf _ (j := loaded (summaries_json w))) with (2 := Hpop).
    intros d Hd. exact (loaded_wf (proj2 Hwf) Hd).
Qed.
End Invariant.

(** ** Cleaning up, at its bounds and repeated *)

Lemma py_slice_to_firstn {A} (k : Z) (l : list A) :
  exists n, py_slice_to k l = firstn n l /\
            length (py_slice_to k l) = slice_length k (length l).
Proof.
  unfold py_slice_to, slice_length. eexists. split; [reflexivity|].
  rewrite length_firstn. apply Nat.min_comm.
Qed.

Lemma StronglySorted_app_l {A} (R : A -> A -> Prop) (l1 l2 : list A) :
  StronglySorted R (l1 ++ l2) -> StronglySorted R l1.
Proof.
  induction l1 as [|a l1 IH]; simpl; intros Hs; [constructor|].
  inversion Hs as [|? ? Hs' Hall]; subst. constructor; auto.
  rewrite Forall_app in Hall. tauto.
Qed.

Lemma cleanup_old_sessions_noop (keep_count n : Z) (w : world) :
  py_len (loaded (sessions_json w)) = Ok n -> n <= keep_count ->
  cleanup_old_sessions keep_count w = (Ok tt, w).
Proof.
  intros Hn Hle.
  unfold cleanup_old_sessions, try_except, cleanup_old_sessions_try, bind,
    lift, ret.
  rewrite _load_sessions_run, _load_summaries_run, Hn.
  now destruct (Z.leb_spec n keep_count); [|lia].
Qed.

Lemma cleanup_old_sessions_done (w : world) (d sm : dict) (keep_count : Z) :
  loaded (sessions_json w) = JObj d -> Dict.wf d ->
  Forall (fun r => start_text r <> None) (Dict.values d) ->
  loaded (summaries_json w) = JObj sm -> Dict.wf sm ->
  keep_count < Z.of_nat (length d) ->
  sessions_dev w = Healthy -> summaries_dev w = Healthy ->
  exists ranked n,
    Permutation d ranked /\ StronglySorted not_older ranked /\
    py_slice_to keep_count ranked = firstn n ranked /\
    cleanup_old_sessions keep_count w
    = (Ok tt,
       put summaries_file
         (Doc (JObj (filter
                       (fun kv =>
                          negb (removed_id d (firstn n ranked) (fst kv)))
                       sm)))
         (logged summaries_file
            (put sessions_file (Doc (JObj (firstn n ranked)))
                 (logged sessions_file w)))).
Proof.
  intros Hd Hwf Hrec Hsm Hwfsm Hk Hdev1 Hdev2.
  destruct (@rank_by_start_time_spec d Hrec) as (ranked & Hrank & Hperm & Hsorted).
  destruct (py_slice_to_firstn keep_count ranked) as (n & Hslice & _).
  exists ranked, n. split; [assumption|]. split; [assumption|].
  split; [assumption|].
  assert (Hwfk : Dict.wf (firstn n ranked))
    by (apply (@wf_firstn _ d ranked); assumption).
  unfold cleanup_old_sessions, try_except, cleanup_old_sessions_try, bind,
    lift, ret.
  rewrite _load_sessions_run, _load_summaries_run, Hd, Hsm. simpl py_len.
  cbv iota beta.
  destruct (Z.leb_spec (Z.of_nat (length d)) keep_count) as [Hle|_]; [lia|].
  rewrite Hrank, Hslice.
  rewrite of_items_id by assumption.
  unfold write_json at 1. simpl dev. rewrite Hdev1.
  change (py_keys (JObj d)) with (Ok (Dict.keys d)). cbv iota beta.
  rewrite pop_all_obj, fold_pop_filter by assumption.
  unfold write_json. simpl dev. rewrite Hdev2.
  do 4 f_equal. apply filter_ext. intros kv. now rewrite removed_ids.
Qed.

(** X12: a negative keep count is taken as a slice bound: on a store of
    [M] sessions (start times stored as text, both rewrites going well)
    [cleanup_old_sessions] with [N < 0] keeps the [M + N] most recent
    sessions, none at all when [M + N <= 0], and removes the summaries of
    the others; it is never a no-op, even on an empty store. *)
Theorem cleanup_negative_keep_count
        (w : world) (d sm : dict) (keep_count : Z) :
  loaded (sessions_json w) = JObj d -> Dict.wf d ->
  Forall (fun r => start_text r <> None) (Dict.values d) ->
  loaded (summaries_json w) = JObj sm -> Dict.wf sm ->
  keep_count < 0 ->
  sessions_dev w = Healthy -> summaries_dev w = Healthy ->
  exists w' kept,
    cleanup_old_sessions keep_count w = (Ok tt, w') /\
    sessions_json w' = Doc (JObj kept) /\
    Z.of_nat (length kept) = Z.max 0 (Z.of_nat (length d) + keep_count) /\
    (forall x y, In x kept -> In y d -> ~ In y kept -> not_older x y) /\
    summaries_json w'
    = Doc (JObj (filter (fun kv => negb (removed_id d kept (fst kv))) sm)).
Proof.
  intros Hd Hwf Hrec Hsm Hwfsm Hk Hdev1 Hdev2.
  destruct (@cleanup_old_sessions_done w d sm keep_count)
    as (ranked & n & Hperm & Hsorted & Hslice & ->); auto; [lia|].
  do 2 eexists. split; [reflexivity|]. split; [reflexivity|].
  split; [|split; [|reflexivity]].
  - destruct (py_slice_to_firstn keep_count ranked) as (_ & _ & Hlen).
    rewrite Hslice in Hlen. rewrite Hlen.
    rewrite <- (Permutation_length Hperm). unfold slice_length.
    destruct (Z.ltb_spec keep_count 0); lia.
  - intros x y Hx Hy Hny.
    apply (Permutation_in _ Hperm) in Hy.
    rewrite <- (firstn_skipn n ranked) in Hy, Hsorted.
    apply in_app_or in Hy as [Hy|Hy]; [contradiction|].
    eapply StronglySorted_cross; eauto.
Qed.

Lemma length_set_le (V : Type) (k : string) (v : V) (d : Dict.t V) :
  (length (Dict.set k v d) <= S (length d))%nat.
Proof.
  induction d as [|[k' v'] d IH]; simpl; [lia|].
  destruct (String.eqb k k'); simpl; lia.
Qed.

Lemma length_of_items_le (V : Type) (l : list (string * V)) :
  (length (Dict.of_items l) <= length l)%nat.
Proof.
  unfold Dict.of_items.
  assert (G : forall acc : Dict.t V,
             (length (fold_left (fun d kv => Dict.set (fst kv) (snd kv) d) l acc)
              <= length l + length acc)%nat).
  { induction l as [|kv l IH]; intros acc; simpl; [lia|].
    specialize (IH (Dict.set (fst kv) (snd kv) acc)).
    pose proof (length_set_le (fst kv) (snd kv) acc). lia. }
  specialize (G []). simpl in G. lia.
Qed.

Lemma length_slice_to_le (A : Type) (k : Z) (l : list A) :
  0 <= k -> Z.of_nat (length (py_slice_to k l)) <= k.
Proof.
  intros Hk. unfold py_slice_to.
  destruct (Z.ltb_spec k 0); [lia|].
  pose proof (firstn_le_length (Z.to_nat k) l).
  rewrite length_firstn. lia.
Qed.

(** X13: for a keep count that is not negative, a second
    [cleanup_old_sessions] with the same keep count, right after a first
    one whose [try] block ran to its end, changes nothing at all: it
    finds no more sessions than it is to keep and writes no file. *)
Theorem cleanup_twice_changes_nothing (keep_count : Z) (w w' : world) :
  0 <= keep_count ->
  cleanup_old_sessions_try keep_count w = (Ok tt, w') ->
  cleanup_old_sessions keep_count w = (Ok tt, w') /\
  cleanup_old_sessions keep_count w' = (Ok tt, w').
Proof.
  intros Hk Hrun. split.
  { unfold cleanup_old_sessions, try_except. now rewrite Hrun. }
  revert Hrun.
  unfold cleanup_old_sessions_try, bind, lift, ret.
  rewrite _load_sessions_run, _load_summaries_run.
  destruct (py_len (loaded (sessions_json w))) as [n|] eqn:Hn;
    [|discriminate].
  destruct (Z.leb_spec n keep_count) as [Hle|Hgt].
  - intros [= <-]. now apply cleanup_old_sessions_noop with (n := n).
  - destruct (rank_by_start_time (loaded (sessions_json w)))
      as [session_items|]; [|discriminate].
    unfold write_json at 1. simpl.
    destruct (sessions_dev w); try discriminate.
    destruct (py_keys (loaded (sessions_json w))) as [all_ids|];
      [|discriminate].
    destruct (pop_all _ _) as [summaries|]; [|discriminate].
    unfold write_json. simpl.
    destruct (summaries_dev w); try discriminate.
    intros [= <-].
    eapply cleanup_old_sessions_noop; [reflexivity|].
    pose proof (length_of_items_le (py_slice_to keep_count session_items)).
    pose proof (length_slice_to_le session_items Hk). lia.
Qed.

(** X14: a cleanup that removes sessions also reorders the ones it keeps:
    the sessions collection is rewritten most recent [start_time] first,
    so [get_session_history] afterwards lists the kept ids in that
    order and no longer in the order in which they were saved. *)
Theorem cleanup_stores_most_recent_first
        (w : world) (d sm : dict) (keep_count : Z) :
  loaded (sessions_json w) = JObj d -> Dict.wf d ->
  Forall (fun r => start_text r <> None) (Dict.values d) ->
  loaded (summaries_json w) = JObj sm -> Dict.wf sm ->
  keep_count < Z.of_nat (length d) ->
  sessions_dev w = Healthy -> summaries_dev w = Healthy ->
  exists w' kept,
    cleanup_old_sessions keep_count w = (Ok tt, w') /\
    sessions_json w' = Doc (JObj kept) /\
    StronglySorted not_older kept /\
    get_session_history w' = (Ok (Dict.keys kept), w').
Proof.
  intros Hd Hwf Hrec Hsm Hwfsm Hk Hdev1 Hdev2.
  destruct (@cleanup_old_sessions_done w d sm keep_count)
    as (ranked & n & Hperm & Hsorted & Hslice & ->); auto.
  do 2 eexists. split; [reflexivity|]. split; [reflexivity|]. split.
  - rewrite <- (firstn_skipn n ranked) in Hsorted.
    now apply StronglySorted_app_l in Hsorted.
  - now rewrite get_session_history_run.
Qed.

(** ** Listing summaries, creating sessions, statistics, failed dumps *)

Lemma map_snd_filter_key (q : Z -> bool) (l : list (Z * SessionSummary.t)) :
  Forall (fun y => fst y = SessionSummary.end_time (snd y)) l ->
  map snd (filter (fun y => q (fst y)) l)
  = filter (fun s => q (SessionSummary.end_time s)) (map snd l).
Proof.
  induction 1 as [|y l Hy _ IH]; simpl; auto.
  rewrite <- Hy. destruct (q (fst y)); simpl; now rewrite IH.
Qed.

Lemma substring_length_le (n : nat) (s : string) :
  (String.length (substring 0 n s) <= n)%nat.
Proof.
  revert s. induction n as [|n IH]; intros [|c s]; simpl; try lia.
  specialize (IH s). lia.
Qed.

Lemma map_res_same_length {A B} (f : A -> res B) (l : list A) (r : list B) :
  map_res f l = Ok r -> length r = length l.
Proof.
  revert r. induction l as [|x l IH]; simpl; intros r.
  - now intros [= <-].
  - destruct (f x); simpl; [|discriminate].
    destruct (map_res f l); simpl; [|discriminate].
    intros [= <-]. simpl. f_equal. now apply IH.
Qed.

Lemma messages_lens_nonneg (records : list json) (lens : list Z) :
  map_res messages_len records = Ok lens -> 0 <= fold_right Z.add 0 lens.
Proof.
  revert lens. induction records as [|r records IH]; simpl; intros lens.
  - intros [= <-]. simpl. lia.
  - destruct (messages_len r) as [n|] eqn:En; simpl; [|discriminate].
    destruct (map_res messages_len records) as [ns|]; simpl; [|discriminate].
    intros [= <-]. simpl. specialize (IH ns eq_refl).
    unfold messages_len in En.
    destruct (py_get r "messages" (JArr [])) as [m|]; simpl in En;
      [|discriminate].
    destruct m; simpl in En; try discriminate; injection En as <-; lia.
Qed.

Section Listing.
Context `{TimestampText}.

(** X15: [get_session_summaries] keeps summaries that end at the same
    time in the order in which they are stored: the sort is stable also
    with [reverse=True]. *)
Theorem get_session_summaries_keeps_ties
        (w : world) (ss : list SessionSummary.t) (t : Z) :
  persisted_summaries w = Ok ss ->
  exists l,
    get_session_summaries w = (Ok l, w) /\
    filter (fun s => SessionSummary.end_time s =? t) l
    = filter (fun s => SessionSummary.end_time s =? t) ss.
Proof.
  unfold persisted_summaries, get_session_summaries. intros Hss.
  rewrite _load_all_summaries_run. eexists. split; [reflexivity|].
  unfold sorted_summaries.
  destruct (py_values (loaded (summaries_json w))) as [records|];
    simpl in *; [|discriminate].
  rewrite Hss. simpl.
  destruct (sort_desc datetime_lt (map by_end_time ss)) as [sorted|] eqn:Es.
  - simpl.
    assert (Hstable :
              filter (fun y : Z * SessionSummary.t => fst y =? t) sorted
              = filter (fun y => fst y =? t) (map by_end_time ss)).
    { apply (@sort_desc_stable SessionSummary.t Z datetime_lt Z.ltb)
        with (q := fun k => k =? t).
      - reflexivity.
      - intros a b Ha Hb. lia.
      - exact Es. }
    assert (Hkeys : Forall (fun y => fst y = SessionSummary.end_time (snd y))
                           sorted).
    { destruct (@sort_desc_spec SessionSummary.t Z datetime_lt Z.ltb
                  (fun _ => True)) with (l := map by_end_time ss)
        as (l' & Hl' & Hperm & _).
      - reflexivity.
      - intros a b. lia.
      - apply Forall_forall. auto.
      - rewrite Es in Hl'. injection Hl' as <-.
        apply Forall_forall. intros y Hy.
        apply (Permutation_in _ (Permutation_sym Hperm)) in Hy.
        apply in_map_iff in Hy as (x & <- & _). reflexivity. }
    rewrite <- (map_snd_filter_key (fun k => k =? t) Hkeys), Hstable.
    rewrite (map_snd_filter_key (fun k => k =? t)).
    + now rewrite map_map, map_id.
    + apply Forall_forall. intros y Hy.
      apply in_map_iff in Hy as (x & <- & _). reflexivity.
  - exfalso.
    destruct (@sort_desc_spec SessionSummary.t Z datetime_lt Z.ltb
                (fun _ => True)) with (l := map by_end_time ss)
      as (l' & Hl' & _).
    + reflexivity.
    + intros a b. lia.
    + apply Forall_forall. auto.
    + congruence.
Qed.

(** X16: [create_session] never looks at the sessions collection: the
    session it makes is the same whatever the sessions file holds, so its
    id, the first eight characters of the generator's text, can be one
    that is already stored.  The session is active, has no message and
    starts at the clock's reading; each call draws once from the
    generator. *)
Theorem create_session_never_reads_sessions
        (memory_enabled : bool) (f : file) (w : world) :
  exists s w1,
    create_session memory_enabled w = (Ok s, w1) /\
    fst (create_session memory_enabled (put sessions_file f w)) = Ok s /\
    ChatSession.session_id s = substring 0 8 (uuid_stream w (uuid_next w)) /\
    (String.length (ChatSession.session_id s) <= 8)%nat /\
    ChatSession.is_active s = true /\
    ChatSession.messages s = [] /\
    ChatSession.start_time s = clock w /\
    uuid_next w1 = S (uuid_next w).
Proof.
  unfold create_session, bind, uuid4, now, ret.
  destruct memory_enabled.
  - rewrite !_load_all_summaries_run. simpl.
    do 2 eexists. split; [reflexivity|]. split; [reflexivity|]. simpl.
    repeat split; auto. apply substring_length_le.
  - simpl. do 2 eexists. split; [reflexivity|]. split; [reflexivity|]. simpl.
    repeat split; auto. apply substring_length_le.
Qed.

(** X17: a non-empty answer of [get_storage_stats] has exactly the five
    fields, with [0 <= active_sessions <= total_sessions], no negative
    count, and a [total_sessions] that is the number of ids that
    [get_session_history] lists. *)
Theorem get_storage_stats_bounds (self : SessionManager) (w : world) (r : dict) :
  get_storage_stats self w = (Ok r, w) -> r <> [] ->
  exists total active summaries messages ids,
    r = [("total_sessions", JNum total); ("active_sessions", JNum active);
         ("total_summaries", JNum summaries); ("total_messages", JNum messages);
         ("storage_path", JStr (storage_path self))] /\
    0 <= active <= total /\ 0 <= summaries /\ 0 <= messages /\
    get_session_history w = (Ok ids, w) /\ total = Z.of_nat (length ids).
Proof.
  rewrite get_storage_stats_run, get_session_history_run.
  unfold get_storage_stats_try, bind, lift, ret.
  rewrite _load_sessions_run, _load_summaries_run.
  destruct (loaded (sessions_json w)) as [| | | | |d] eqn:Hd; simpl;
    try (intros [= <-] Hr; now destruct Hr).
  destruct (map_res is_active_flag (Dict.values d)) as [flags|] eqn:Ef; simpl;
    [|intros [= <-] Hr; now destruct Hr].
  destruct (map_res messages_len (Dict.values d)) as [lens|] eqn:El; simpl;
    [|intros [= <-] Hr; now destruct Hr].
  destruct (py_len (loaded (summaries_json w))) as [m|] eqn:Em; simpl;
    [|intros [= <-] Hr; now destruct Hr].
  intros [= <-] _. do 5 eexists. split; [reflexivity|].
  apply map_res_same_length in Ef. apply messages_lens_nonneg in El.
  pose proof (filter_length_le (fun b : bool => b) flags) as Hle.
  unfold Dict.values, Dict.keys in *. rewrite length_map in *.
  repeat split; try lia; auto.
  - destruct (loaded (summaries_json w)); simpl in Em; try discriminate;
      injection Em as <-; lia.
Qed.

(** X18: the collections are rewritten in place: when [json.dump] fails
    after [open] has truncated the sessions file, [save_session] raises
    and [delete_session] of a stored id answers [False], and in both cases
    every stored session is lost: the file is unreadable and the history
    is empty. *)
Theorem failed_dump_loses_all_sessions
        (session : ChatSession.t) (w : world) (d : dict) :
  loaded (sessions_json w) = JObj d -> sessions_dev w = DumpFails ->
  (exists w',
      save_session session w = (Raise OSError, w') /\
      sessions_json w' = Unreadable /\
      get_session_history w' = (Ok [], w') /\
      forall session_id, load_session session_id w' = (Ok None, w')) /\
  (forall session_id,
      Dict.mem session_id d = true ->
      exists w',
        delete_session session_id w = (Ok false, w') /\
        sessions_json w' = Unreadable /\
        get_session_history w' = (Ok [], w')).
Proof.
  intros Hd Hdev. split.
  - rewrite save_session_run, Hd. unfold write_json. simpl. rewrite Hdev.
    eexists. split; [reflexivity|]. split; [reflexivity|]. split.
    + now rewrite get_session_history_run.
    + intros session_id. now rewrite load_session_run.
  - intros session_id Hmem. unfold delete_session, try_except.
    rewrite (delete_session_try_present _ _ Hd Hmem), Hdev. unfold ret.
    eexists. split; [reflexivity|]. split; [reflexivity|].
    now rewrite get_session_history_run.
Qed.
(** X19: the two listings of sessions never raise and change nothing;
    when the sessions file is missing, unreadable or holds anything but a
    dictionary, both answer the empty list. *)
Theorem session_listings_degrade (w : world) :
  exists ids l,
    get_session_history w = (Ok ids, w) /\
    get_active_sessions w = (Ok l, w) /\
    ((forall d, sessions_json w <> Doc (JObj d)) -> ids = [] /\ l = []).
Proof.
  rewrite get_session_history_run, get_active_sessions_run.
  do 2 eexists. split; [reflexivity|]. split; [reflexivity|].
  intros Hnot. destruct (sessions_json w) as [| |j]; simpl; auto.
  destruct j; simpl; auto. now destruct (Hnot kv).
Qed.
End Listing.

(** * The further facts, run on the sample data *)

Section MoreRuns.
#[local] Existing Instance decimal_text.

Lemma five_days_store_wf : store_wf five_days.
Proof.
  split; intros d [= <-]; [apply five_sessions_wf | apply four_summaries_wf].
Defined.

Lemma save_session_replaces_unreadable_file_witness :
  (exists w',
      save_session session_A garbled_world = (Ok tt, w') /\
      sessions_json w' = Doc (JObj [("A", ChatSession.to_dict session_A)])) /\
  save_session session_A list_world = (Raise TypeError, list_world).
Proof.
  destruct (@save_session_replaces_unreadable_file decimal_text session_A
              garbled_world) as (Hgarbled & _).
  destruct (@save_session_replaces_unreadable_file decimal_text session_A
              list_world) as (_ & Hlist).
  split.
  - apply Hgarbled; [left; reflexivity | reflexivity].
  - apply (Hlist (JArr [JStr "A"])); [reflexivity | discriminate].
Defined.

Lemma save_session_keeps_order_witness :
  exists ids,
    get_session_history five_days = (Ok ids, five_days) /\
    get_session_history (snd (save_session session_A five_days))
    = (Ok (ids ++ ["A"]), snd (save_session session_A five_days)).
Proof.
  exact (@save_session_keeps_order decimal_text session_A five_days
           (snd (save_session session_A five_days)) eq_refl).
Defined.

Lemma delete_undoes_save_of_new_session_witness :
  exists w2,
    delete_session "A" (snd (save_session session_A five_days))
    = (Ok true, w2) /\
    loaded (sessions_json w2) = loaded (sessions_json five_days) /\
    summaries_json w2 = summaries_json five_days.
Proof.
  exact (@delete_undoes_save_of_new_session decimal_text session_A five_days
           (snd (save_session session_A five_days)) eq_refl eq_refl).
Defined.

Lemma delete_session_removes_one_witness :
  delete_session "s2" (snd (delete_session "s2" five_days))
  = (Ok false, snd (delete_session "s2" five_days)).
Proof.
  destruct (@delete_session_removes_one decimal_text "s2" five_days
              (snd (delete_session "s2" five_days)))
    as (Hagain & _).
  - intros d [= <-]. apply five_sessions_wf.
  - reflexivity.
  - exact Hagain.
Defined.

Lemma close_session_summarizer_fails_witness :
  close_session silent_manager session_A five_days
  = (Ok (ChatSession.set_is_active false session_A, None), five_days).
Proof.
  exact (@close_session_summarizer_fails decimal_text silent_manager session_A
           five_days SummarizerError eq_refl).
Defined.

Lemma close_session_half_done_witness :
  exists w',
    close_session manager0 session_A five_days_locked
    = (Ok (ChatSession.set_is_active false session_A, None), w') /\
    summaries_json w'
    = Doc (JObj (four_summaries ++ [("A", SessionSummary.to_dict summary_A)])) /\
    sessions_json w' = Doc (JObj five_sessions).
Proof.
  exact (@close_session_half_done decimal_text manager0 session_A
           five_days_locked "summary" four_summaries
           eq_refl eq_refl eq_refl eq_refl).
Defined.

Lemma close_session_twice_witness :
  exists d2,
    summaries_json
      (snd (close_session manager0
              (ChatSession.set_is_active false session_A)
              (snd (close_session manager0 session_A fresh_world))))
    = Doc (JObj d2) /\
    Dict.keys d2 = ["A"].
Proof.
  destruct (@close_session_twice decimal_text manager0 session_A
              (ChatSession.set_is_active false session_A)
              (ChatSession.set_is_active false session_A)
              summary_A summary_A fresh_world
              (snd (close_session manager0 session_A fresh_world))
              (snd (close_session manager0 session_A fresh_world))
              (snd (close_session manager0
                      (ChatSession.set_is_active false session_A)
                      (snd (close_session manager0 session_A fresh_world))))
              eq_refl eq_refl eq_refl)
    as (_ & _ & _ & d1 & d2 & Hd1 & Hd2 & Hkeys & _).
  exists d2. split; [exact Hd2|].
  rewrite Hkeys. injection Hd1 as <-. reflexivity.
Defined.

Lemma get_active_sessions_answer_witness :
  get_active_sessions (snd (save_session session_B five_days))
  = (Ok [session_B], snd (save_session session_B five_days)).
Proof.
  destruct (@get_active_sessions_answer decimal_text
              (snd (save_session session_B five_days))
              (five_sessions ++ [("B", ChatSession.to_dict session_B)])
              eq_refl) as (Hok & _).
  apply Hok.
  - simpl. repeat constructor; now eexists.
  - reflexivity.
Defined.

Lemma saved_active_session_is_listed_witness :
  exists l,
    get_active_sessions (snd (save_session session_B five_days))
    = (Ok l, snd (save_session session_B five_days)) /\
    In session_B l.
Proof.
  destruct (@saved_active_session_is_listed decimal_text session_B five_days
              (snd (save_session session_B five_days)) five_sessions []
              eq_refl eq_refl eq_refl)
    as (l & Hl & Hin & _).
  - simpl. repeat constructor; now eexists.
  - reflexivity.
  - exists l. split; [exact Hl | exact Hin].
Defined.

Lemma closed_session_leaves_active_list_witness :
  fst (get_active_sessions
         (snd (close_session manager0 session_B
                 (snd (save_session session_B five_days)))))
  = Ok [].
Proof.
  exact (@closed_session_leaves_active_list decimal_text manager0 session_B
           (ChatSession.set_is_active false session_B)
           (SessionSummary.mk "B" "summary" 0 60 100)
           (snd (save_session session_B five_days))
           (snd (close_session manager0 session_B
                   (snd (save_session session_B five_days))))
           (five_sessions ++ [("B", ChatSession.to_dict session_B)])
           eq_refl eq_refl).
Defined.

Lemma store_keys_stay_distinct_witness :
  store_wf (snd (cleanup_old_sessions 3 five_days)) /\
  store_wf (snd (close_session manager0 session_A five_days)).
Proof.
  destruct (@store_keys_stay_distinct decimal_text manager0 five_days
              five_days_store_wf) as (_ & Hclose & _ & Hcleanup).
  split; [apply Hcleanup | apply Hclose].
Defined.

Lemma cleanup_negative_keep_count_witness :
  exists w' kept,
    cleanup_old_sessions (-2) five_days = (Ok tt, w') /\
    sessions_json w' = Doc (JObj kept) /\
    Z.of_nat (length kept) = 3.
Proof.
  destruct (@cleanup_negative_keep_count five_days five_sessions four_summaries
              (-2) eq_refl five_sessions_wf five_sessions_texts
              eq_refl four_summaries_wf)
    as (w' & kept & Hrun & Hs & Hlen & _).
  - lia.
  - reflexivity.
  - reflexivity.
  - exists w', kept. split; [exact Hrun|]. split; [exact Hs | exact Hlen].
Defined.

Lemma cleanup_twice_changes_nothing_witness :
  cleanup_old_sessions 3 five_days
  = (Ok tt, snd (cleanup_old_sessions_try 3 five_days)) /\
  cleanup_old_sessions 3 (snd (cleanup_old_sessions_try 3 five_days))
  = (Ok tt, snd (cleanup_old_sessions_try 3 five_days)).
Proof.
  apply (@cleanup_twice_changes_nothing 3 five_days
           (snd (cleanup_old_sessions_try 3 five_days))).
  - lia.
  - vm_compute. reflexivity.
Defined.

Lemma cleanup_stores_most_recent_first_witness :
  exists w' kept,
    cleanup_old_sessions 3 five_days = (Ok tt, w') /\
    sessions_json w' = Doc (JObj kept) /\
    get_session_history w' = (Ok (Dict.keys kept), w').
Proof.
  destruct (@cleanup_stores_most_recent_first five_days five_sessions
              four_summaries 3 eq_refl five_sessions_wf five_sessions_texts
              eq_refl four_summaries_wf)
    as (w' & kept & Hrun & Hs & _ & Hhist).
  - simpl. lia.
  - reflexivity.
  - reflexivity.
  - exists w', kept. split; [exact Hrun|]. split; [exact Hs | exact Hhist].
Defined.

Lemma get_session_summaries_keeps_ties_witness :
  exists l,
    get_session_summaries tied_world = (Ok l, tied_world) /\
    filter (fun s => SessionSummary.end_time s =? 70) l
    = [summary_P; summary_R].
Proof.
  exact (@get_session_summaries_keeps_ties decimal_text tied_world
           [summary_P; summary_Q; summary_R] 70 eq_refl).
Defined.

Lemma get_storage_stats_bounds_witness :
  exists total active ids,
    0 <= active <= total /\
    get_session_history five_days = (Ok ids, five_days) /\
    total = Z.of_nat (length ids).
Proof.
  destruct (@get_storage_stats_bounds manager0 five_days
              [("total_sessions", JNum 5); ("active_sessions", JNum 0);
               ("total_summaries", JNum 4); ("total_messages", JNum 0);
               ("storage_path", JStr "sessions")] eq_refl)
    as (total & active & summaries & messages & ids
        & _ & Hb & _ & _ & Hh & Ht).
  - discriminate.
  - exists total, active, ids. split; [exact Hb|]. split; [exact Hh | exact Ht].
Defined.

Lemma failed_dump_loses_all_sessions_witness :
  (exists w',
      save_session session_A five_days_dump_fails = (Raise OSError, w') /\
      get_session_history w' = (Ok [], w')) /\
  (exists w',
      delete_session "s1" five_days_dump_fails = (Ok false, w') /\
      get_session_history w' = (Ok [], w')).
Proof.
  destruct (@failed_dump_loses_all_sessions decimal_text session_A
              five_days_dump_fails five_sessions eq_refl eq_refl)
    as ((w1 & Hsave & _ & Hhist1 & _) & Hdelete).
  destruct (Hdelete "s1" eq_refl) as (w2 & Hdel & _ & Hhist2).
  split.
  - exists w1. split; [exact Hsave | exact Hhist1].
  - exists w2. split; [exact Hdel | exact Hhist2].
Defined.

Lemma session_listings_degrade_witness :
  get_session_history garbled_world = (Ok [], garbled_world) /\
  get_active_sessions list_world = (Ok [], list_world).
Proof.
  destruct (@session_listings_degrade decimal_text garbled_world)
    as (ids & l & Hids & _ & Hempty).
  destruct (@session_listings_degrade decimal_text list_world)
    as (ids' & l' & _ & Hl' & Hempty').
  destruct Hempty as (-> & _); [discriminate|].
  destruct Hempty' as (_ & ->); [discriminate|].
  split; [exact Hids | exact Hl'].
Defined.

Lemma pop_all_order_witness :
  pop_all ["s2"; "s4"] (JObj four_summaries)
  = pop_all ["s4"; "s2"] (JObj four_summaries).
Proof.
  apply pop_all_order. apply perm_swap.
Defined.
End MoreRuns.
